(** * MindCache: the Node.js bridge, HTTP controllers, validation schemas and
    SDK request loop, embedded from the JavaScript sources, together with the
    storage core they drive through FFI.

    Layout of the development:
    - [Js]: exceptions and state passing, the way the async methods use them;
    - the data model (memories, sessions, summaries) and the FFI interface
      [RustLib] declared by [RustBridge.loadRustLibrary];
    - [Bridge]: the methods of class RustBridge;
    - [Validation]: the joi schema [schemas.memorySave];
    - [MemoryController], [SessionController]: the express handlers;
    - [Sdk]: [MindCacheSDK.request];
    - [Core]: the storage core behind the FFI;
    - the properties. *)

From Stdlib Require Import ZArith QArith List String Ascii Bool Lia.
From Stdlib Require Import Permutation DecimalString DecimalNat.
Import ListNotations.

Local Open Scope string_scope.
Local Open Scope Z_scope.

(* ===================================================================== *)
(** ** JavaScript errors, results and the state/exception monad          *)
(* ===================================================================== *)

Module Js.

(** A thrown [Error]: [message], plus the [code] and [status] properties
    that [createError] attaches (absent on a plain [new Error(msg)]). *)
Record Error := mkError {
  message : string;
  code : option string;
  status : option Z
}.

(** [new Error(msg)] *)
Definition newError (msg : string) : Error := mkError msg None None.

(** errorHandler.js, [createError (message, code, statusCode, details)];
    [details] only decorates the response body and is not kept. *)
Definition createError (msg code : string) (statusCode : Z) : Error :=
  mkError msg (Some code) (Some statusCode).

Inductive Result (A : Type) : Type :=
| Ok (a : A)
| Throw (e : Error).
Arguments Ok {A} a.
Arguments Throw {A} e.

(** An async method over a mutable object of type [S]. *)
Definition M (S A : Type) : Type := S -> Result A * S.

Definition ret {S A} (a : A) : M S A := fun s => (Ok a, s).

Definition throw {S A} (e : Error) : M S A := fun s => (Throw e, s).

Definition bind {S A B} (m : M S A) (k : A -> M S B) : M S B :=
  fun s =>
    match m s with
    | (Ok a, s') => k a s'
    | (Throw e, s') => (Throw e, s')
    end.

(** [try { m } catch (error) { h error }] *)
Definition try_catch {S A} (m : M S A) (h : Error -> M S A) : M S A :=
  fun s =>
    match m s with
    | (Ok a, s') => (Ok a, s')
    | (Throw e, s') => h e s'
    end.

(** [a || b] on strings: the empty string is falsy. *)
Definition or_string (a b : string) : string :=
  match a with
  | EmptyString => b
  | _ => a
  end.

(** [String.prototype.includes] *)
Fixpoint includes (s sub : string) : bool :=
  if String.prefix sub s then true
  else match s with
       | EmptyString => false
       | String _ s' => includes s' sub
       end.

(** White space removed by [String.prototype.trim], over byte strings. *)
Definition is_white_space (c : ascii) : bool :=
  let n := nat_of_ascii c in
  ((9 <=? n) && (n <=? 13))%nat || (n =? 32)%nat.

Fixpoint all_white_space (s : string) : bool :=
  match s with
  | EmptyString => true
  | String c s' => is_white_space c && all_white_space s'
  end.

(** [s.trim() === ''] *)
Definition trim_is_empty (s : string) : bool := all_white_space s.

(** An integer inside a template string. *)
Definition number_to_string (z : Z) : string :=
  NilZero.string_of_int (Z.to_int z).

End Js.

Import Js.

Declare Scope js_scope.
Delimit Scope js_scope with js.
Notation "x <- m ;; k" := (Js.bind m (fun x => k))
  (at level 61, m at next level, right associativity) : js_scope.
Notation "m ;;; k" := (Js.bind m (fun _ => k))
  (at level 61, right associativity) : js_scope.

(* ===================================================================== *)
(** ** Data model                                                        *)
(* ===================================================================== *)

(** A memory as the core serialises it to the bridge: the bridge reads the
    properties [userId], [sessionId] and [timestamp]; the controllers read
    [importance] and [content].  [timestamp] is the creation instant in
    milliseconds ([new Date(memory.timestamp)] is what the code compares).
    Importance is a JS number, kept as a rational. *)
Record Memory := mkMemory {
  id : string;
  userId : string;
  sessionId : string;
  content : string;
  metadata : string;
  importance : Q;
  timestamp : Z;
  expiresAt : Z;
  lastAccessedAt : Z;
  accessCount : nat
}.

(** The session object built by [getUserSessions] and [getSession].
    [createdAt] and [lastActive] are optional because [getSession] reads them
    with [?.] from a possibly empty array.  [name] is always [null], [tags]
    always [[]] and [metadata] always [{}]. *)
Record Session := mkSession {
  s_id : string;
  s_userId : string;
  s_createdAt : option Z;
  s_lastActive : option Z;
  s_memoryCount : nat
}.

(** The summary record of a session (spec section 6, [summarize]). *)
Record Summary := mkSummary {
  sum_session_id : string;
  sum_user_id : string;
  sum_memory_count : nat;
  sum_importance_score : Q;
  sum_summary_text : string;
  sum_key_topics : list string;
  sum_time_span : Z * Z
}.

(** The FFI interface declared in [loadRustLibrary]:
    - [mindcache_save (ptr, userId, sessionId, content, metadataJson)],
    - [mindcache_recall (ptr, userId, query, sessionId, limit)],
    - [mindcache_summarize (ptr, sessionId)].
    A ['string'] argument may be [null]/[undefined], hence [option string];
    a ['string'] result may be a null pointer, hence [option].  Results of
    recall and summarize are given already parsed ([JSON.parse] of the text
    the core returns).  Every call may update the cache behind [ptr]. *)
Record RustLib (Cache : Type) := mkRustLib {
  mindcache_save :
    Cache -> option string -> option string -> option string -> string ->
    option string * Cache;
  mindcache_recall :
    Cache -> option string -> option string -> option string -> Z ->
    option (list Memory) * Cache;
  mindcache_summarize :
    Cache -> option string -> option Summary * Cache
}.
Arguments mindcache_save {Cache} _.
Arguments mindcache_recall {Cache} _.
Arguments mindcache_summarize {Cache} _.

(* ===================================================================== *)
(** ** class RustBridge                                                  *)
(* ===================================================================== *)

Module Bridge.

Local Open Scope js_scope.

(** The [config] object built by the constructor and handed to
    [mindcache_init_with_config]. *)
Record Config := mkConfig {
  storage_path : string;
  auto_decay_enabled : bool;
  decay_interval_hours : Z;
  default_memory_ttl_hours : Z;
  enable_compression : bool;
  max_memories_per_user : Z;
  importance_threshold : Q
}.

(** The constructor's defaults ([config.x || d], [config.x !== false]). *)
Definition or_Z (x : option Z) (d : Z) : Z :=
  match x with
  | Some v => if v =? 0 then d else v
  | None => d
  end.

Definition or_Q (x : option Q) (d : Q) : Q :=
  match x with
  | Some v => if Qeq_bool v 0 then d else v
  | None => d
  end.

(** The [config] argument of the constructor; an absent key is [None]. *)
Record ConfigOptions := mkConfigOptions {
  o_storage_path : option string;
  o_auto_decay_enabled : option bool;
  o_decay_interval_hours : option Z;
  o_default_memory_ttl_hours : option Z;
  o_enable_compression : option bool;
  o_max_memories_per_user : option Z;
  o_importance_threshold : option Q
}.

(** [x !== false] *)
Definition not_false (x : option bool) : bool :=
  match x with
  | Some false => false
  | _ => true
  end.

(** [constructor (config = {})] *)
Definition constructor (config : ConfigOptions) : Config :=
  mkConfig
    (or_string (match o_storage_path config with Some p => p | None => "" end)
       "./mindcache_data")
    (not_false (o_auto_decay_enabled config))
    (or_Z (o_decay_interval_hours config) 24)
    (or_Z (o_default_memory_ttl_hours config) 720)
    (not_false (o_enable_compression config))
    (or_Z (o_max_memories_per_user config) 10000)
    (or_Q (o_importance_threshold config) (3 # 10)).

(** [new RustBridge()] *)
Definition default_config : Config :=
  constructor (mkConfigOptions None None None None None None None).

(** The argument object of [saveMemory], after its parameter defaults
    ([metadata = {}], [importance = 0.5], [ttlHours = null]).  [metadata]
    is carried as its JSON text, so that [JSON.stringify] is the
    identity. *)
Record SaveArgs := mkSaveArgs {
  sa_userId : option string;
  sa_sessionId : option string;
  sa_content : option string;
  sa_metadata : string;
  sa_importance : Q;
  sa_ttlHours : option Q
}.

(** The [filter] object received by [recallMemories]. *)
Record Filter := mkFilter {
  f_userId : option string;
  f_query : option string;
  f_sessionId : option string;
  f_dateFrom : option Z;
  f_dateTo : option Z;
  f_limit : option Z;
  f_minImportance : option Q;
  f_keywords : option (list string)
}.

(** [{ userId, sessionId, limit }] as the bridge builds it internally. *)
Definition plain_filter (u s : option string) (limit : Z) : Filter :=
  mkFilter u None s None None (Some limit) None None.

(** Result of [deleteSession]. *)
Record Deletion := mkDeletion {
  d_sessionId : string;
  d_memoriesDeleted : nat
}.

Section WithLib.

Context {Cache : Type} (lib : RustLib Cache).

(** The mutable fields of a bridge instance. *)
Record RustBridge := mkBridge {
  cachePtr : option Cache;
  isInitialized : bool
}.

(** [ensureInitialized]: [cachePtr.isNull()] and a missing pointer are
    both the [None] pointer here. *)
Definition ensureInitialized : M RustBridge unit :=
  fun b =>
    if negb (isInitialized b)
       || match cachePtr b with None => true | Some _ => false end
    then (Throw (newError
            "Rust bridge not initialized. Call initialize() first."), b)
    else (Ok tt, b).

(** A call [this.rustLib.f(this.cachePtr, ...)]. *)
Definition call {A} (f : Cache -> A * Cache) : M RustBridge A :=
  fun b =>
    match cachePtr b with
    | Some c =>
        let '(a, c') := f c in
        (Ok a, mkBridge (Some c') (isInitialized b))
    | None => (Throw (newError "Cannot read properties of null"), b)
    end.

(** [catch (error) { throw new Error(`<prefix>${error.message}`) }] *)
Definition rethrow {A} (prefix : string) (m : M RustBridge A)
  : M RustBridge A :=
  try_catch m (fun error => throw (newError (prefix ++ message error))).

(** [async saveMemory ({ userId, sessionId, content, metadata,
    importance, ttlHours })] *)
Definition saveMemory (a : SaveArgs) : M RustBridge string :=
  ensureInitialized ;;;
  rethrow "Failed to save memory: "
    (let metadataJson := sa_metadata a in
     result <- call (fun c =>
                 mindcache_save lib c (sa_userId a) (sa_sessionId a)
                   (sa_content a) metadataJson) ;;
     match result with
     | None => throw (newError "Failed to save memory - no result returned")
     | Some EmptyString =>
         throw (newError "Failed to save memory - no result returned")
     | Some r => ret r
     end).

(** [async recallMemories (filter)] *)
Definition recallMemories (filter : Filter) : M RustBridge (list Memory) :=
  ensureInitialized ;;;
  rethrow "Failed to recall memories: "
    (let userId := f_userId filter in
     let query := f_query filter in
     let sessionId := f_sessionId filter in
     let limit := match f_limit filter with Some l => l | None => 50 end in
     result <- call (fun c =>
                 mindcache_recall lib c userId query sessionId limit) ;;
     match result with
     | None => ret []
     | Some memories => ret memories
     end).

(** [async summarizeSession (sessionId)] *)
Definition summarizeSession (sessionId : string) : M RustBridge Summary :=
  ensureInitialized ;;;
  rethrow "Failed to generate summary: "
    (result <- call (fun c => mindcache_summarize lib c (Some sessionId)) ;;
     match result with
     | None => throw (newError "No summary generated")
     | Some summary => ret summary
     end).

(** The [Map] of [getUserSessions], in insertion order. *)
Fixpoint map_has (m : list Session) (key : string) : bool :=
  match m with
  | [] => false
  | s :: m' => if String.eqb (s_id s) key then true else map_has m' key
  end.

(** In-place update of the object stored under [key]. *)
Fixpoint map_update (m : list Session) (key : string)
  (f : Session -> Session) : list Session :=
  match m with
  | [] => []
  | s :: m' =>
      if String.eqb (s_id s) key then f s :: m'
      else s :: map_update m' key f
  end.

(** [new Date(a) > new Date(b)]; an undefined date is NaN. *)
Definition date_gt (a : Z) (b : option Z) : bool :=
  match b with Some b' => b' <? a | None => false end.

Definition date_lt (a : Z) (b : option Z) : bool :=
  match b with Some b' => a <? b' | None => false end.

(** The second half of the [forEach] callback, on the object
    [session = sessionMap.get(memory.sessionId)]. *)
Definition count_memory (memory : Memory) (session : Session) : Session :=
  let session :=
    mkSession (s_id session) (s_userId session) (s_createdAt session)
      (s_lastActive session) (S (s_memoryCount session)) in
  let session :=
    if date_gt (timestamp memory) (s_lastActive session)
    then mkSession (s_id session) (s_userId session)
           (s_createdAt session) (Some (timestamp memory))
           (s_memoryCount session)
    else session in
  if date_lt (timestamp memory) (s_createdAt session)
  then mkSession (s_id session) (s_userId session)
         (Some (timestamp memory)) (s_lastActive session)
         (s_memoryCount session)
  else session.

(** The body of [memories.forEach(memory => ...)]. *)
Definition visit_memory (sessionMap : list Session) (memory : Memory)
  : list Session :=
  let sessionMap :=
    if negb (map_has sessionMap (sessionId memory))
    then (sessionMap ++
          [mkSession (sessionId memory) (userId memory)
             (Some (timestamp memory)) (Some (timestamp memory)) 0])%list
    else sessionMap in
  map_update sessionMap (sessionId memory) (count_memory memory).

Definition group_sessions (memories : list Memory) : list Session :=
  fold_left visit_memory memories [].

(** [async getUserSessions (userId)] *)
Definition getUserSessions (userId : string)
  : M RustBridge (list Session) :=
  ensureInitialized ;;;
  rethrow "Failed to get user sessions: "
    (memories <- recallMemories (plain_filter (Some userId) None 10000) ;;
     ret (group_sessions memories)).

(** [async getSession (sessionId)]; [null] is [None]. *)
Definition getSession (sessionId : string)
  : M RustBridge (option Session) :=
  ensureInitialized ;;;
  rethrow "Failed to get session: "
    (memories <- recallMemories (plain_filter None (Some sessionId) 1) ;;
     match memories with
     | [] => ret None
     | first :: _ =>
         allMemories <- recallMemories
           (plain_filter (Some (userId first)) (Some sessionId) 10000) ;;
         ret (Some (mkSession sessionId (userId first)
                      (option_map timestamp (last (map Some allMemories) None))
                      (option_map timestamp (hd_error allMemories))
                      (List.length allMemories)))
     end).

(** [async deleteSession (sessionId)], the placeholder: it looks the
    session up and reports its memory count. *)
Definition deleteSession (sessionId : string) : M RustBridge Deletion :=
  session <- getSession sessionId ;;
  match session with
  | None => throw (newError "Session not found")
  | Some session => ret (mkDeletion sessionId (s_memoryCount session))
  end.

End WithLib.

Arguments RustBridge Cache : clear implicits.
Arguments mkBridge {Cache} _ _.
Arguments cachePtr {Cache} _.
Arguments isInitialized {Cache} _.

End Bridge.

(* ===================================================================== *)
(** ** validation.js: the joi schema of a save request                   *)
(* ===================================================================== *)

Module Validation.

(** The JSON body of [POST /api/memory/save]; an absent key is [None].
    [String.length] stands for the JS [length] of the string, which is what
    joi's [min]/[max] count. *)
Record SaveBody := mkSaveBody {
  sb_userId : option string;
  sb_sessionId : option string;
  sb_content : option string;
  sb_metadata : option string;
  sb_importance : option Q;
  sb_ttlHours : option Q
}.

Inductive Field :=
| F_userId | F_sessionId | F_content | F_metadata | F_importance | F_ttlHours.

(** The joi error types the schema can raise. *)
Inductive Rule :=
| any_required | string_empty | string_min | string_max
| number_min | number_max | number_integer.

(** One entry of [error.details]. *)
Record Detail := mkDetail { d_field : Field; d_rule : Rule }.

Definition Field_eqb (a b : Field) : bool :=
  match a, b with
  | F_userId, F_userId | F_sessionId, F_sessionId | F_content, F_content
  | F_metadata, F_metadata | F_importance, F_importance
  | F_ttlHours, F_ttlHours => true
  | _, _ => false
  end.

Definition Rule_eqb (a b : Rule) : bool :=
  match a, b with
  | any_required, any_required | string_empty, string_empty
  | string_min, string_min | string_max, string_max
  | number_min, number_min | number_max, number_max
  | number_integer, number_integer => true
  | _, _ => false
  end.

Definition has_detail (f : Field) (r : Rule) (ds : list Detail) : bool :=
  existsb (fun d => Field_eqb (d_field d) f && Rule_eqb (d_rule d) r) ds.

(** [value.length] *)
Fixpoint jsLength (s : string) : Z :=
  match s with
  | EmptyString => 0
  | String _ s' => 1 + jsLength s'
  end.

(** [joi.string().required().min(lo).max(hi)]: an absent value is
    [any.required], the empty string is [string.empty]; otherwise every
    length rule is tried ([abortEarly: false]). *)
Definition string_required_min_max (f : Field) (lo hi : Z)
  (v : option string) : list Detail :=
  match v with
  | None => [mkDetail f any_required]
  | Some EmptyString => [mkDetail f string_empty]
  | Some s =>
      ((if jsLength s <? lo then [mkDetail f string_min] else [])
       ++ (if hi <? jsLength s then [mkDetail f string_max] else []))%list
  end.

(** The [integer] rule on a JS number held as a rational. *)
Definition is_integer (q : Q) : bool :=
  (Qnum q mod Z.pos (Qden q) =? 0).

(** [joi.number().min(lo).max(hi).optional()] *)
Definition number_min_max_optional (f : Field) (lo hi : Q) (v : option Q)
  : list Detail :=
  match v with
  | None => []
  | Some q =>
      ((if Qle_bool lo q then [] else [mkDetail f number_min])
       ++ (if Qle_bool q hi then [] else [mkDetail f number_max]))%list
  end.

(** [joi.number().integer().min(lo).max(hi).optional()] *)
Definition number_integer_min_max_optional (f : Field) (lo hi : Q)
  (v : option Q) : list Detail :=
  match v with
  | None => []
  | Some q =>
      ((if is_integer q then [] else [mkDetail f number_integer])
       ++ number_min_max_optional f lo hi (Some q))%list
  end.

(** [schemas.memorySave], key by key in declaration order;
    [joi.object().optional()] accepts any object. *)
Definition memorySave (body : SaveBody) : list Detail :=
  (string_required_min_max F_userId 1 255 (sb_userId body)
   ++ string_required_min_max F_sessionId 1 255 (sb_sessionId body)
   ++ string_required_min_max F_content 1 100000 (sb_content body)
   ++ number_min_max_optional F_importance 0 1 (sb_importance body)
   ++ number_integer_min_max_optional F_ttlHours 1 8760 (sb_ttlHours body))%list.

(** [createValidator (schema)]: either the 400 [VALIDATION_ERROR] response
    with its details, or the value handed on as [req.body]. *)
Definition createValidator (schema : SaveBody -> list Detail)
  (body : SaveBody) : list Detail + SaveBody :=
  match schema body with
  | [] => inr body
  | details => inl details
  end.

Definition validateMemorySave : SaveBody -> list Detail + SaveBody :=
  createValidator memorySave.

End Validation.

(* ===================================================================== *)
(** ** controllers/memoryController.js                                   *)
(* ===================================================================== *)

(** What a handler sends with [res.status(code).json(...)]. *)
Record Response (A : Type) := mkResponse {
  res_status : Z;
  res_data : A
}.
Arguments mkResponse {A} _ _.
Arguments res_status {A} _.
Arguments res_data {A} _.

Module MemoryController.

Import Bridge Validation.
Local Open Scope js_scope.

(** [data] of the save response ([timestamp] is the wall clock at reply
    time and is not kept). *)
Record SaveData := mkSaveData {
  sd_memoryId : string;
  sd_userId : option string;
  sd_sessionId : option string
}.

(** The JSON body of [POST /api/memory/recall]; the dates are given as the
    instants [new Date(...)] parses them to. *)
Record RecallBody := mkRecallBody {
  rb_userId : option string;
  rb_query : option string;
  rb_sessionId : option string;
  rb_dateFrom : option Z;
  rb_dateTo : option Z;
  rb_limit : option Z;
  rb_minImportance : option Q;
  rb_keywords : option (list string)
}.

Record RecallData := mkRecallData {
  rd_memories : list Memory;
  rd_count : nat
}.

(** One element of [results] and of [errors] in the bulk response. *)
Record BulkResult := mkBulkResult {
  br_index : nat;
  br_memoryId : string;
  br_userId : option string;
  br_sessionId : option string
}.

Record BulkError := mkBulkError {
  be_index : nat;
  be_error : string;
  be_memory : SaveBody
}.

Record BulkData := mkBulkData {
  bd_success : bool;
  bd_results : list BulkResult;
  bd_total : nat;
  bd_successful : nat;
  bd_failed : nat;
  bd_errors : option (list BulkError)
}.

(** [x || null] and [x || d] on optional values. *)
Definition truthy_string (x : option string) : option string :=
  match x with
  | Some EmptyString => None
  | _ => x
  end.

Definition truthy_Z (x : option Z) : option Z :=
  match x with
  | Some v => if v =? 0 then None else Some v
  | None => None
  end.

Definition truthy_Q (x : option Q) : option Q :=
  match x with
  | Some v => if Qeq_bool v 0 then None else Some v
  | None => None
  end.

Definition truthy_list {A} (x : option (list A)) : option (list A) := x.

(** The object literal passed to [rustBridge.saveMemory] by both
    [saveMemory] and [bulkSaveMemories]. *)
Definition save_args (memory : SaveBody) : SaveArgs :=
  mkSaveArgs (sb_userId memory) (sb_sessionId memory) (sb_content memory)
    (match sb_metadata memory with Some m => m | None => "{}" end)
    (or_Q (sb_importance memory) (1 # 2))
    (truthy_Q (sb_ttlHours memory)).

Section WithLib.

Context {Cache : Type} (lib : RustLib Cache).

Definition Handler (A : Type) : Type := M (RustBridge Cache) (Response A).

(** [saveMemory], route [POST /api/memory/save] *)
Definition saveMemory (body : SaveBody) : Handler SaveData :=
  let userId := sb_userId body in
  let sessionId := sb_sessionId body in
  try_catch
    ((match sessionId with
      | None => throw (createError "Session ID is required"
                         "MISSING_SESSION_ID" 400)
      | Some s =>
          if trim_is_empty s
          then throw (createError "Session ID is required"
                        "MISSING_SESSION_ID" 400)
          else ret tt
      end) ;;;
     memoryId <- Bridge.saveMemory lib (save_args body) ;;
     ret (mkResponse 201 (mkSaveData memoryId userId sessionId)))
    (fun error =>
       throw (createError
                (or_string (message error) "Failed to save memory")
                "MEMORY_SAVE_ERROR" 500)).

(** The [filter] object built by [recallMemories]. *)
Definition recall_filter (body : RecallBody) : Filter :=
  mkFilter (rb_userId body)
    (truthy_string (rb_query body))
    (truthy_string (rb_sessionId body))
    (rb_dateFrom body)
    (rb_dateTo body)
    (Some (or_Z (rb_limit body) 50))
    (truthy_Q (rb_minImportance body))
    (truthy_list (rb_keywords body)).

(** [recallMemories], route [POST /api/memory/recall] *)
Definition recallMemories (body : RecallBody) : Handler RecallData :=
  try_catch
    (let filter := recall_filter body in
     memories <- Bridge.recallMemories lib filter ;;
     ret (mkResponse 200 (mkRecallData memories (List.length memories))))
    (fun error =>
       throw (createError
                (or_string (message error) "Failed to recall memories")
                "MEMORY_RECALL_ERROR" 500)).

(** [summarizeSession], route [POST /api/memory/summarize] *)
Definition summarizeSession (sessionId : string) : Handler Summary :=
  try_catch
    (summary <- Bridge.summarizeSession lib sessionId ;;
     ret (mkResponse 200 summary))
    (fun error =>
       if includes (message error) "No memories found"
       then throw (createError "No memories found for this session"
                     "SESSION_EMPTY" 404)
       else throw (createError
                     (or_string (message error)
                        "Failed to generate session summary")
                     "SUMMARY_ERROR" 500)).

(** The [for] loop of [bulkSaveMemories]: [i] is the loop index, [rest]
    the elements [memories[i..]], and the pair the arrays [results] and
    [errors] ([push] appends). *)
Fixpoint bulk_loop (i : nat) (rest : list SaveBody)
  (results : list BulkResult) (errors : list BulkError)
  : M (RustBridge Cache) (list BulkResult * list BulkError) :=
  match rest with
  | [] => ret (results, errors)
  | memory :: rest' =>
      acc <- try_catch
               (memoryId <- Bridge.saveMemory lib (save_args memory) ;;
                ret ((results ++
                      [mkBulkResult i memoryId (sb_userId memory)
                         (sb_sessionId memory)])%list, errors))
               (fun error =>
                  ret (results,
                       (errors ++
                        [mkBulkError i (message error) memory])%list)) ;;
      bulk_loop (S i) rest' (fst acc) (snd acc)
  end.

(** [bulkSaveMemories], route [POST /api/memory/bulk] *)
Definition bulkSaveMemories (memories : list SaveBody) : Handler BulkData :=
  try_catch
    (acc <- bulk_loop 0 memories [] [] ;;
     let results := fst acc in
     let errors := snd acc in
     let errors_len := List.length errors in
     let results_len := List.length results in
     let statusCode :=
       if (0 <? errors_len)%nat && (0 <? results_len)%nat then 207
       else if (0 <? errors_len)%nat then 400 else 201 in
     ret (mkResponse statusCode
            (mkBulkData (errors_len =? 0)%nat results
               (List.length memories) results_len errors_len
               (if (0 <? errors_len)%nat then Some errors else None))))
    (fun error =>
       throw (createError
                (or_string (message error)
                   "Failed to perform bulk save operation")
                "BULK_SAVE_ERROR" 500)).

End WithLib.

End MemoryController.

(* ===================================================================== *)
(** ** The save route and the request id                                 *)
(* ===================================================================== *)

Module Routes.

Import Bridge Validation.
Local Open Scope js_scope.



Section WithLib.

Context {Cache : Type} (lib : RustLib Cache).


End WithLib.

End Routes.

(* ===================================================================== *)
(** ** controllers/sessionController.js                                  *)
(* ===================================================================== *)

Module SessionController.

Import Bridge.
Local Open Scope js_scope.

Record DeleteData := mkDeleteData {
  dd_sessionId : string;
  dd_userId : string;
  dd_memoriesDeleted : nat
}.

Definition code_is (e : Error) (c : string) : bool :=
  match code e with
  | Some c' => String.eqb c' c
  | None => false
  end.

Section WithLib.

Context {Cache : Type} (lib : RustLib Cache).

(** [deleteSession], route [DELETE /api/sessions/:userId/:sessionId];
    [confirm] is [req.query.confirm]. *)
Definition deleteSession (userId sessionId : string)
  (confirm : option string)
  : M (RustBridge Cache) (Response DeleteData) :=
  try_catch
    ((match confirm with
      | Some "true" => ret tt
      | _ => throw (createError
               "Session deletion requires confirmation. Add ?confirm=true to the request"
               "CONFIRMATION_REQUIRED" 400)
      end) ;;;
     existingSession <- Bridge.getSession lib sessionId ;;
     match existingSession with
     | None => throw (createError "Session not found"
                        "SESSION_NOT_FOUND" 404)
     | Some existingSession =>
         if negb (String.eqb (s_userId existingSession) userId)
         then throw (createError "Session does not belong to this user"
                       "SESSION_ACCESS_DENIED" 403)
         else
           deletionResult <- Bridge.deleteSession lib sessionId ;;
           ret (mkResponse 200
                  (mkDeleteData sessionId userId
                     (d_memoriesDeleted deletionResult)))
     end)
    (fun error =>
       if code_is error "SESSION_NOT_FOUND"
          || code_is error "SESSION_ACCESS_DENIED"
          || code_is error "CONFIRMATION_REQUIRED"
       then throw error
       else throw (createError
                     (or_string (message error) "Failed to delete session")
                     "SESSION_DELETE_ERROR" 500)).

End WithLib.

End SessionController.

(* ===================================================================== *)
(** ** class MindCacheSDK: the request loop                              *)
(* ===================================================================== *)

Module Sdk.

(** [class MindCacheError]: [status] defaults to 0; a plain error thrown
    by [fetch] (connection refused and the like) has no [status]. *)
Record SdkError := mkSdkError {
  e_message : string;
  e_status : option Z
}.

(** What one call of [fetchWithTimeout] followed by the body reads does:
    - [Replied data]: [response.ok], body parsed by [response.json()];
    - [Failed_status st msg]: [!response.ok] with [response.status = st];
      [msg] is the [errorMessage] extracted from the body;
    - [Aborted]: the timer aborted the request;
    - [Network_error msg]: [fetch] rejected with a plain error. *)
Inductive Fetched (A : Type) :=
| Replied (data : A)
| Failed_status (st : Z) (msg : string)
| Aborted
| Network_error (msg : string).
Arguments Replied {A} _.
Arguments Failed_status {A} _ _.
Arguments Aborted {A}.
Arguments Network_error {A} _.

(** The options kept by the constructor. *)
Record Options := mkOptions {
  opt_timeout : option Z;
  opt_retries : option Z
}.

Record MindCacheSDK := mkSdk {
  timeout : Z;
  retries : Z
}.

(** [constructor (options = {})] *)
Definition new_sdk (options : Options) : MindCacheSDK :=
  mkSdk (Bridge.or_Z (opt_timeout options) 30000)
        (Bridge.or_Z (opt_retries options) 3).

(** What the loop does that the outside can see. *)
Inductive Event :=
| Attempt (n : Z)
| Sleep (ms : Z).

(** The error thrown inside the [try] for a failed attempt. *)
Definition attempt_error {A} (sdk : MindCacheSDK) (r : Fetched A)
  : option SdkError :=
  match r with
  | Replied _ => None
  | Failed_status st msg => Some (mkSdkError msg (Some st))
  | Aborted =>
      Some (mkSdkError
              ("Request timeout after " ++ number_to_string (timeout sdk)
               ++ "ms") (Some 0))
  | Network_error msg => Some (mkSdkError msg None)
  end.

(** [error.status && error.status >= 400 && error.status < 500] *)
Definition is_client_error (e : SdkError) : bool :=
  match e_status e with
  | Some st => negb (st =? 0) && (400 <=? st) && (st <? 500)
  | None => false
  end.

(** [Math.min(1000 * Math.pow(2, attempt - 1), 10000)] *)
Definition backoff (attempt : Z) : Z :=
  Z.min (1000 * 2 ^ (attempt - 1)) 10000.

Section Request.

Context {A : Type} (sdk : MindCacheSDK).

(** The server and network as seen by this request: what the [n]-th
    attempt meets. *)
Variable fetchWithTimeout : Z -> Fetched A.

(** The [for (attempt = 1; attempt <= this.retries; attempt++)] loop;
    [fuel] bounds the remaining iterations.  The result is the returned
    data or the final [throw lastError] ([None] is [undefined]). *)
Fixpoint request_loop (fuel : nat) (attempt : Z)
  (lastError : option SdkError) (log : list Event)
  : (A + option SdkError) * list Event :=
  match fuel with
  | O => (inr lastError, log)
  | S fuel' =>
      if attempt <=? retries sdk then
        let log := (log ++ [Attempt attempt])%list in
        match fetchWithTimeout attempt with
        | Replied data => (inl data, log)
        | r =>
            let lastError := attempt_error sdk r in
            if match lastError with
               | Some e => is_client_error e
               | None => false
               end
            then (inr lastError, log)
            else if attempt <? retries sdk
            then request_loop fuel' (attempt + 1) lastError
                   (log ++ [Sleep (backoff attempt)])%list
            else request_loop fuel' (attempt + 1) lastError log
        end
      else (inr lastError, log)
  end.

(** [async request (method, path, data, options)]: the loop runs at most
    [retries] times, one more step sees the exit test fail. *)
Definition request : (A + option SdkError) * list Event :=
  request_loop (S (Z.to_nat (retries sdk))) 1 None [].

End Request.

Definition sleeps (log : list Event) : list Z :=
  flat_map (fun e => match e with Sleep ms => [ms] | Attempt _ => [] end) log.

Definition attempts (log : list Event) : list Z :=
  flat_map (fun e => match e with Attempt n => [n] | Sleep _ => [] end) log.

End Sdk.

(* ===================================================================== *)
(** ** The storage core behind the FFI                                   *)
(* ===================================================================== *)

Module Core.

Import Bridge.
Local Open Scope Q_scope.

(** Modelled from the spec: the parts of the core that the spec names but
    does not fix, or fixes with a transcendental function: the recency
    decay [exp(-delta / half_life)] of section 4.5, the analyzer's
    full-text match and BM25-lite relevance (the stopword list is not
    given), and the TF-IDF topic extraction of section 4.7.  They are
    taken as parameters of the core. *)
Record Analysis := mkAnalysis {
  recency_decay : Z -> Q;
  matches : string -> Memory -> bool;
  text_relevance : string -> Memory -> Q;
  key_topics : list Memory -> list Memory -> list string
}.

(** Modelled from the spec: the error kinds of section 7 that the
    operations below raise. *)
Inductive ErrorKind :=
| InvalidArgument | TooLarge | SessionEmpty.

(** Modelled from the spec: the state of the Rust core (the library that
    [getLibraryPath] looks for under rust-core/target): the frozen
    configuration, the wall clock (injectable, section 8 scenario 3), the
    id counter and the live records in insertion order. *)
Record Cache := mkCache {
  config : Config;
  clock : Z;
  next_id : nat;
  memories : list Memory
}.

(** Modelled from the spec: the input of [put] (section 4.4, and the
    [save] row of section 6). *)
Record PutInput := mkPutInput {
  p_user_id : option string;
  p_session_id : option string;
  p_content : option string;
  p_metadata : string;
  p_importance : option Q;
  p_ttl_hours : option Q
}.

(** Modelled from the spec: a user, session or content that is given and
    not empty (section 3 asks for non-empty values). *)
Definition present (s : option string) : option string :=
  match s with
  | Some EmptyString => None
  | _ => s
  end.

(** Modelled from the spec: ids are unique across the store (I1); the
    decimal numeral of a counter stands for the opaque id. *)
Definition fresh_id (n : nat) : string :=
  "mem_" ++ NilEmpty.string_of_uint (Nat.to_uint n).

(** Modelled from the spec: timestamps are in milliseconds (section 3),
    ttls in hours. *)
Definition ms_per_hour : Q := 3600000.

(** Modelled from the spec: a ttl in hours turned into whole
    milliseconds. *)
Definition Qfloor (q : Q) : Z := (Qnum q / Z.pos (Qden q))%Z.

Section WithAnalysis.

Variable an : Analysis.

(** Modelled from the spec: [access_weight(n) = 1 - 1/(1+n)] of
    section 4.5. *)
Definition access_weight (n : nat) : Q :=
  1 - 1 / (1 + inject_Z (Z.of_nat n)).

(** Modelled from the spec: the score of section 4.5; the text term is
    0 without a text filter. *)
Definition score (now : Z) (query : option string) (m : Memory) : Q :=
  (55 # 100) * importance m
  + (25 # 100) * recency_decay an (now - timestamp m)
  + (15 # 100) * match query with
                 | Some q => text_relevance an q m
                 | None => 0
                 end
  + (5 # 100) * access_weight (accessCount m).

(** Modelled from the spec: the order of section 4.5 step 5, score
    descending, then [created_at] descending, then id ascending. *)
Definition before (now : Z) (query : option string) (a b : Memory) : bool :=
  let sa := score now query a in
  let sb := score now query b in
  if Qeq_bool sa sb then
    if (timestamp a =? timestamp b)%Z then String.leb (id a) (id b)
    else (timestamp b <? timestamp a)%Z
  else Qle_bool sb sa.

(** Modelled from the spec: ordering by [before], as an insertion
    sort. *)
Fixpoint insert_ranked (now : Z) (query : option string) (m : Memory)
  (l : list Memory) : list Memory :=
  match l with
  | [] => [m]
  | x :: l' =>
      if before now query x m then x :: insert_ranked now query m l'
      else m :: l
  end.

(** Modelled from the spec: step 5 of section 4.5, the candidates in
    rank order. *)
Definition rank (now : Z) (query : option string) (l : list Memory)
  : list Memory :=
  fold_right (insert_ranked now query) [] l.

(** Modelled from the spec: eviction under the per-user cap, run by
    [put] before insertion (section 4.4): the lowest-ranked record of
    the user is dropped when one more would exceed the cap. *)
Definition evict_for (c : Cache) (user : string) : list Memory :=
  let mine := filter (fun m => String.eqb (userId m) user) (memories c) in
  if (max_memories_per_user (config c)
        <? Z.of_nat (List.length mine) + 1)%Z
  then match last (map Some (rank (clock c) None mine)) None with
       | Some victim =>
           filter (fun m => negb (String.eqb (id m) (id victim)))
             (memories c)
       | None => memories c
       end
  else memories c.

(** Modelled from the spec: [put] of section 4.4: assigns the id, stamps
    [created_at], computes [expires_at] from the explicit ttl or the
    configured default, stores importance (default 0.5, section 3);
    [TooLarge] above 100 KiB of content or 16 KiB of metadata,
    [InvalidArgument] for an empty user, session or content. *)
Definition put (c : Cache) (i : PutInput)
  : (ErrorKind + string) * Cache :=
  match present (p_user_id i), present (p_session_id i),
        present (p_content i) with
  | Some user, Some session, Some text =>
      if ((102400 <? Validation.jsLength text)
          || (16384 <? Validation.jsLength (p_metadata i)))%Z
      then (inl TooLarge, c)
      else
        let ttl := match p_ttl_hours i with
                   | Some h => h
                   | None => inject_Z (default_memory_ttl_hours (config c))
                   end in
        let m := mkMemory (fresh_id (next_id c)) user session text
                   (p_metadata i)
                   (match p_importance i with Some q => q | None => 1 # 2 end)
                   (clock c)
                   (clock c + Qfloor (ttl * ms_per_hour))
                   (clock c) 0 in
        (inr (id m),
         mkCache (config c) (clock c) (S (next_id c))
           (evict_for c user ++ [m]))
  | _, _, _ => (inl InvalidArgument, c)
  end.

(** Modelled from the spec: [touch] of section 4.4 on the returned
    ids. *)
Definition touch (now : Z) (ids : list string) (m : Memory) : Memory :=
  if existsb (String.eqb (id m)) ids
  then mkMemory (id m) (userId m) (sessionId m) (content m) (metadata m)
         (importance m) (timestamp m) (expiresAt m) now
         (S (accessCount m))
  else m.

(** Modelled from the spec: the planner of section 4.5 restricted to the
    filters that cross the FFI (user, query, session, limit): the seed
    is the session index when a session id is given, else the user
    index; the user id, when given, narrows the seed; the text filter
    applies when a query is given; the survivors are ranked, trimmed to
    [limit] and touched.  With neither user nor session there is no
    seed and the call is an [InvalidArgument]. *)
Definition recall (c : Cache) (user query session : option string)
  (limit : Z) : (ErrorKind + list Memory) * Cache :=
  match present user, present session with
  | None, None => (inl InvalidArgument, c)
  | u, s =>
      let in_session m :=
        match s with Some x => String.eqb (sessionId m) x | None => true end in
      let of_user m :=
        match u with Some x => String.eqb (userId m) x | None => true end in
      let in_text m :=
        match present query with Some q => matches an q m | None => true end in
      let candidates :=
        filter (fun m => in_session m && of_user m && in_text m)
          (memories c) in
      let found :=
        firstn (Z.to_nat limit)
          (rank (clock c) (present query) candidates) in
      (inr found,
       mkCache (config c) (clock c) (next_id c)
         (map (touch (clock c) (map id found)) (memories c)))
  end.

(** Modelled from the spec: the sum behind the mean importance of
    section 4.7. *)
Definition Qsum (l : list Q) : Q := fold_right Qplus 0 l.

(** Modelled from the spec: "concatenated newest-first" of section
    4.7, by insertion on [created_at]. *)
Fixpoint insert_newest (m : Memory) (l : list Memory) : list Memory :=
  match l with
  | [] => [m]
  | x :: l' =>
      if (timestamp m <=? timestamp x)%Z then x :: insert_newest m l'
      else m :: l
  end.

(** Modelled from the spec: the memories of the excerpt, newest
    first. *)
Definition newest_first (l : list Memory) : list Memory :=
  fold_right insert_newest [] l.

(** Modelled from the spec: "each truncated to 240 characters" of
    section 4.7. *)
Definition truncate (n : nat) (s : string) : string := String.substring 0 n s.

(** Modelled from the spec: the summarizer of section 4.7:
    [SessionEmpty] for a session without memories; otherwise the count,
    the mean importance, the time span, the topics and the three
    best-scored memories (text weight 0), newest first, each cut to 240
    characters. *)
Definition summarize (c : Cache) (session : option string)
  : (ErrorKind + Summary) * Cache :=
  match present session with
  | None => (inl InvalidArgument, c)
  | Some sid =>
      match filter (fun m => String.eqb (sessionId m) sid) (memories c) with
      | [] => (inl SessionEmpty, c)
      | first :: rest =>
          let ms := first :: rest in
          let stamps := map timestamp ms in
          let top := firstn 3 (rank (clock c) None ms) in
          (inr (mkSummary sid (userId first) (List.length ms)
                  (Qsum (map importance ms)
                   / inject_Z (Z.of_nat (List.length ms)))
                  (String.concat ""
                     (map (fun m => truncate 240 (content m))
                        (newest_first top)))
                  (key_topics an ms (memories c))
                  (fold_right Z.min (timestamp first) stamps,
                   fold_right Z.max (timestamp first) stamps)),
           c)
      end
  end.

(** Modelled from the spec: how the operations cross the FFI declared in
    [loadRustLibrary]: [mindcache_save] receives neither importance nor
    ttl, so [put] runs with both absent; an error kind has no channel
    but the null pointer. *)
Definition null_on_error {A} (r : (ErrorKind + A) * Cache)
  : option A * Cache :=
  match r with
  | (inr a, c) => (Some a, c)
  | (inl _, c) => (None, c)
  end.

(** Modelled from the spec: the three operations behind the entry
    points [mindcache_save], [mindcache_recall] and
    [mindcache_summarize]. *)
Definition lib : RustLib Cache :=
  mkRustLib Cache
    (fun c userId sessionId content metadataJson =>
       null_on_error
         (put c (mkPutInput userId sessionId content metadataJson
                   None None)))
    (fun c userId query sessionId limit =>
       null_on_error (recall c userId query sessionId limit))
    (fun c sessionId => null_on_error (summarize c sessionId)).

End WithAnalysis.

End Core.


(* ===================================================================== *)
(** ** JavaScript built-ins used by the handlers                         *)
(* ===================================================================== *)

Module JsBuiltins.

(** Value of a digit in radix 10 or 16, if it is one. *)
Definition digit_value (radix : Z) (c : ascii) : option Z :=
  let n := Z.of_nat (nat_of_ascii c) in
  if (48 <=? n) && (n <=? 57) then Some (n - 48)
  else if (radix =? 16) && (97 <=? n) && (n <=? 102) then Some (n - 87)
  else if (radix =? 16) && (65 <=? n) && (n <=? 70) then Some (n - 55)
  else None.

(** The longest prefix of digits, read in [radix]; [None] when there is
    no digit at all. *)
Fixpoint read_digits (radix : Z) (s : string) (acc : option Z) : option Z :=
  match s with
  | EmptyString => acc
  | String c s' =>
      match digit_value radix c with
      | Some d =>
          read_digits radix s'
            (Some (match acc with Some a => a * radix + d | None => d end))
      | None => acc
      end
  end.

Fixpoint skip_white_space (s : string) : string :=
  match s with
  | String c s' => if is_white_space c then skip_white_space s' else s
  | EmptyString => s
  end.

(** [parseInt(x)] without radix, on a string or [undefined]; [None] is
    NaN.  Leading white space is skipped, a sign is read, a [0x]/[0X]
    prefix switches to radix 16, and reading stops at the first character
    that is not a digit.  The integer is kept exact. *)
Definition parseInt (x : option string) : option Z :=
  match x with
  | None => None
  | Some s =>
      let s := skip_white_space s in
      let '(sign, s) :=
        match s with
        | String "-" s' => (-1, s')
        | String "+" s' => (1, s')
        | _ => (1, s)
        end in
      let '(radix, s) :=
        match s with
        | String "0" (String "x" s') => (16, s')
        | String "0" (String "X" s') => (16, s')
        | _ => (10, s)
        end in
      option_map (Z.mul sign) (read_digits radix s None)
  end.

(** [Array.prototype.slice(start, end)] *)
Definition slice {A : Type} (l : list A) (start final : Z) : list A :=
  let len := Z.of_nat (List.length l) in
  let k := if start <? 0 then Z.max (len + start) 0 else Z.min start len in
  let e := if final <? 0 then Z.max (len + final) 0 else Z.min final len in
  firstn (Z.to_nat (e - k)) (skipn (Z.to_nat k) l).

(** [String.prototype.split(',')] *)
Fixpoint split_comma (s : string) : list string :=
  match s with
  | EmptyString => [EmptyString]
  | String c s' =>
      if Ascii.eqb c "," then EmptyString :: split_comma s'
      else match split_comma s' with
           | piece :: pieces => String c piece :: pieces
           | [] => [String c EmptyString]
           end
  end.


End JsBuiltins.

(* ===================================================================== *)
(** ** More of class RustBridge                                          *)
(* ===================================================================== *)

Module BridgeSessions.

Import Bridge.
Local Open Scope js_scope.

(** The argument [updates] of [updateSession]: the object literal
    [{ name, tags, metadata }]; an [undefined] value is [None]. *)
Record Updates := mkUpdates {
  u_name : option string;
  u_tags : option (list string);
  u_metadata : option string
}.

(** [{ ...session, ...updates, updatedAt }]: the three keys of [updates]
    replace the session's [name: null], [tags: []] and [metadata: {}];
    [updatedAt] is the wall clock and is not kept. *)
Record UpdatedSession := mkUpdatedSession {
  us_session : Session;
  us_name : option string;
  us_tags : option (list string);
  us_metadata : option string
}.

(** [generateSessionId]: [now] is [Date.now()] and [random36] the text of
    [Math.random().toString(36)]. *)
Definition generateSessionId (now : Z) (random36 : string) : string :=
  "session_" ++ number_to_string now ++ "_" ++ String.substring 2 9 random36.

Section WithLib.

Context {Cache : Type} (lib : RustLib Cache).

(** The fields the constructor sets: [cachePtr = null],
    [isInitialized = false]. *)
Definition constructed : RustBridge Cache := mkBridge None false.

(** [async createSession (userId, name, metadata)] *)
Definition createSession (now : Z) (random36 : string)
  (userId : string) (name : option string) (metadata : option string)
  : M (RustBridge Cache) string :=
  ensureInitialized ;;;
  rethrow "Failed to create session: "
    (ret (generateSessionId now random36)).

(** [async getSessionMemories (userId, sessionId)] *)
Definition getSessionMemories (userId sessionId : string)
  : M (RustBridge Cache) (list Memory) :=
  ensureInitialized ;;;
  rethrow "Failed to get session memories: "
    (Bridge.recallMemories lib
       (plain_filter (Some userId) (Some sessionId) 10000)).

(** The inner loop of [searchSessions]: [true] when a keyword found a
    memory ([matchingSessions.push(session); break]). *)
Fixpoint keyword_loop (userId : string) (session : Session)
  (keywords : list string) : M (RustBridge Cache) bool :=
  match keywords with
  | [] => ret false
  | keyword :: rest =>
      memories <- Bridge.recallMemories lib
                    (mkFilter (Some userId) (Some keyword)
                       (Some (s_id session)) None None (Some 1) None None) ;;
      match memories with
      | [] => keyword_loop userId session rest
      | _ :: _ => ret true
      end
  end.

(** The outer loop of [searchSessions]. *)
Fixpoint session_loop (userId : string) (keywords : list string)
  (sessions : list Session) (matchingSessions : list Session)
  : M (RustBridge Cache) (list Session) :=
  match sessions with
  | [] => ret matchingSessions
  | session :: rest =>
      found <- keyword_loop userId session keywords ;;
      session_loop userId keywords rest
        (if found then (matchingSessions ++ [session])%list
         else matchingSessions)
  end.

(** [async searchSessions (userId, keywords)] *)
Definition searchSessions (userId : string) (keywords : list string)
  : M (RustBridge Cache) (list Session) :=
  ensureInitialized ;;;
  rethrow "Failed to search sessions: "
    (sessions <- Bridge.getUserSessions lib userId ;;
     session_loop userId keywords sessions []).

(** [async updateSession (sessionId, updates)], the placeholder. *)
Definition updateSession (sessionId : string) (updates : Updates)
  : M (RustBridge Cache) UpdatedSession :=
  session <- Bridge.getSession lib sessionId ;;
  match session with
  | None => throw (newError "Session not found")
  | Some session =>
      ret (mkUpdatedSession session (u_name updates) (u_tags updates)
             (u_metadata updates))
  end.

End WithLib.

Arguments constructed {Cache}.

End BridgeSessions.

(* ===================================================================== *)
(** ** middleware/errorHandler.js and middleware/validateRequest.js     *)
(* ===================================================================== *)

Module Middleware.

Import JsBuiltins.

(** The JSON body of an error response ([timestamp], [requestId], [path]
    and [method] are not kept). *)
Record ErrorBody := mkErrorBody {
  eb_error : string;
  eb_code : string
}.

(** [formatErrorResponse] *)
Definition formatErrorResponse (error : Error) : ErrorBody :=
  mkErrorBody (or_string (message error) "Internal Server Error")
    (match code error with
     | Some EmptyString => "INTERNAL_ERROR"
     | Some c => c
     | None => "INTERNAL_ERROR"
     end).

Definition code_eqb (error : Error) (c : string) : bool :=
  match code error with
  | Some c' => String.eqb c' c
  | None => false
  end.

(** [errorHandler (error, req, res, next)] when the headers are not sent
    yet; [name] is [error.name]. *)
Definition errorHandler (name : string) (error : Error)
  : Response ErrorBody :=
  let status_is_400 :=
    match status error with Some s => s =? 400 | None => false end in
  if String.eqb name "ValidationError" || code_eqb error "VALIDATION_ERROR"
  then mkResponse 400 (formatErrorResponse error)
  else if String.eqb name "UnauthorizedError" || code_eqb error "UNAUTHORIZED"
  then mkResponse 401 (formatErrorResponse error)
  else if code_eqb error "FORBIDDEN"
  then mkResponse 403 (formatErrorResponse error)
  else if code_eqb error "NOT_FOUND"
  then mkResponse 404 (formatErrorResponse error)
  else if code_eqb error "CONFLICT"
  then mkResponse 409 (formatErrorResponse error)
  else if code_eqb error "RATE_LIMIT_EXCEEDED"
  then mkResponse 429 (formatErrorResponse error)
  else if String.eqb name "SyntaxError" && status_is_400
  then mkResponse 400
         (formatErrorResponse
            (mkError "Invalid JSON in request body" (Some "INVALID_JSON")
               (status error)))
  else if code_eqb error "RUST_BRIDGE_ERROR"
  then mkResponse 500 (formatErrorResponse error)
  else match status error with
       | Some s => if s =? 0 then mkResponse 500 (formatErrorResponse error)
                   else mkResponse s (formatErrorResponse error)
       | None => mkResponse 500 (formatErrorResponse error)
       end.

(** [x || y] on optional strings. *)
Definition or_else (x y : option string) : option string :=
  match x with
  | Some EmptyString => y
  | Some _ => x
  | None => y
  end.

(** [!!x] on an optional string. *)
Definition is_truthy (x : option string) : bool :=
  match x with
  | Some EmptyString => false
  | Some _ => true
  | None => false
  end.

(** [validateApiKey]: [requireApiKey] and [validApiKeys] are the
    environment variables [REQUIRE_API_KEY] and [VALID_API_KEYS],
    [header] is [req.get('X-API-Key')] and [query] is
    [req.query.apiKey]. *)
Definition validateApiKey (requireApiKey validApiKeys : option string)
  (header query : option string) : option Error :=
  match requireApiKey with
  | Some "true" =>
      let apiKey := or_else header query in
      let validKeys :=
        split_comma (match or_else validApiKeys (Some "") with
                     | Some v => v
                     | None => ""
                     end) in
      let included :=
        match apiKey with
        | Some k => existsb (String.eqb k) validKeys
        | None => false
        end in
      if negb (is_truthy apiKey) || negb included
      then Some (mkError "Invalid or missing API key"
                   (Some "INVALID_API_KEY") (Some 401))
      else None
  | _ => None
  end.

End Middleware.

(* ===================================================================== *)
(** ** More of controllers/sessionController.js                          *)
(* ===================================================================== *)

Module SessionHandlers.

Import Bridge BridgeSessions JsBuiltins SessionController.
Local Open Scope js_scope.

(** [data.pagination] together with [data.memories]. *)
Record PageData := mkPageData {
  pd_memories : list Memory;
  pd_total : nat;
  pd_returned : nat;
  pd_offset : Z;
  pd_limit : option Z
}.

(** The pagination block of [getSessionMemories]: [limit] and [offset]
    are [req.query.limit] and [req.query.offset]. *)
Definition paginate (memories : list Memory) (limit offset : option string)
  : PageData :=
  let limitNum := parseInt limit in
  let offsetNum :=
    match parseInt offset with
    | Some o => o
    | None => 0
    end in
  let paginatedMemories :=
    match limitNum with
    | Some l =>
        if 0 <? l
        then let startIndex := offsetNum in
             let endIndex := startIndex + l in
             slice memories startIndex endIndex
        else memories
    | None => memories
    end in
  mkPageData paginatedMemories (List.length memories)
    (List.length paginatedMemories) offsetNum
    (match limitNum with
     | Some l => if l =? 0 then None else Some l
     | None => None
     end).

Section WithLib.

Context {Cache : Type} (lib : RustLib Cache).

(** The [catch] shared by [getSession] and [updateSession]. *)
Definition keep_session_errors {A : Type} (fallback code : string)
  (error : Error) : M (RustBridge Cache) A :=
  if code_is error "SESSION_NOT_FOUND"
     || code_is error "SESSION_ACCESS_DENIED"
  then throw error
  else throw (createError (or_string (message error) fallback) code 500).

(** The two checks shared by [getSession], [updateSession] and
    [deleteSession]. *)
Definition owned_session (userId sessionId : string)
  : M (RustBridge Cache) Session :=
  session <- Bridge.getSession lib sessionId ;;
  match session with
  | None => throw (createError "Session not found"
                     "SESSION_NOT_FOUND" 404)
  | Some session =>
      if negb (String.eqb (s_userId session) userId)
      then throw (createError "Session does not belong to this user"
                    "SESSION_ACCESS_DENIED" 403)
      else ret session
  end.

(** [getSession], route [GET /api/sessions/:userId/:sessionId] *)
Definition getSession (userId sessionId : string)
  : M (RustBridge Cache) (Response Session) :=
  try_catch
    (session <- owned_session userId sessionId ;;
     ret (mkResponse 200 session))
    (keep_session_errors "Failed to get session" "SESSION_GET_ERROR").

(** [getSessionMemories], route
    [GET /api/sessions/:userId/:sessionId/memories] *)
Definition getSessionMemories (userId sessionId : string)
  (limit offset : option string)
  : M (RustBridge Cache) (Response PageData) :=
  try_catch
    (memories <- BridgeSessions.getSessionMemories lib userId sessionId ;;
     ret (mkResponse 200 (paginate memories limit offset)))
    (fun error =>
       throw (createError
                (or_string (message error)
                   "Failed to get session memories")
                "SESSION_MEMORIES_ERROR" 500)).

(** [updateSession], route [PUT /api/sessions/:userId/:sessionId] *)
Definition updateSession (userId sessionId : string) (updates : Updates)
  : M (RustBridge Cache) (Response UpdatedSession) :=
  try_catch
    (existingSession <- owned_session userId sessionId ;;
     updatedSession <- BridgeSessions.updateSession lib sessionId updates ;;
     ret (mkResponse 200 updatedSession))
    (keep_session_errors "Failed to update session"
       "SESSION_UPDATE_ERROR").

(** [searchSessions], route [POST /api/sessions/search] *)
Definition searchSessions (userId : string) (keywords : list string)
  : M (RustBridge Cache) (Response (list Session)) :=
  try_catch
    (sessions <- BridgeSessions.searchSessions lib userId keywords ;;
     ret (mkResponse 200 sessions))
    (fun error =>
       throw (createError
                (or_string (message error) "Failed to search sessions")
                "SESSION_SEARCH_ERROR" 500)).

End WithLib.

End SessionHandlers.

(* ===================================================================== *)
(** ** memoryController.js: user statistics                              *)
(* ===================================================================== *)

Module UserStats.

Import JsBuiltins.









End UserStats.

(* ===================================================================== *)
(** ** class RustBridge: statistics, cleanup and health check            *)
(* ===================================================================== *)

Module Lifecycle.

Import Bridge BridgeSessions.
Local Open Scope js_scope.

(** What [healthCheck] returns; [config] of the healthy answer is the
    constructor's and is not kept. *)
Inductive Health :=
| status_not_initialized
| status_healthy
| status_unhealthy (error : string) (initialized : bool).

Section WithLib.

(** [mindcache_get_stats (ptr)] and [mindcache_destroy (ptr)] of the FFI
    interface, either of which may throw; [J] is the type of parsed
    JSON, [JSON_parse] is [JSON.parse] and [empty_object] is [{}]. *)
Context {Cache J : Type}
  (mindcache_get_stats : Cache -> Result (option string) * Cache)
  (mindcache_destroy : Cache -> Result unit)
  (JSON_parse : string -> Result J)
  (empty_object : J).

(** A call [this.rustLib.f(this.cachePtr)] that may throw. *)
Definition call_throwing {A} (f : Cache -> Result A * Cache)
  : M (RustBridge Cache) A :=
  fun b =>
    match cachePtr b with
    | Some c =>
        let '(a, c') := f c in
        (a, mkBridge (Some c') (isInitialized b))
    | None => (Throw (newError "Cannot read properties of null"), b)
    end.

(** [async getStats ()] *)
Definition getStats : M (RustBridge Cache) J :=
  ensureInitialized ;;;
  rethrow "Failed to get statistics: "
    (result <- call_throwing mindcache_get_stats ;;
     match result with
     | None => ret empty_object
     | Some EmptyString => ret empty_object
     | Some text =>
         fun b => (JSON_parse text, b)
     end).

(** [async cleanup ()]: the [catch] only logs. *)
Definition cleanup : M (RustBridge Cache) unit :=
  try_catch
    (fun b =>
       match cachePtr b with
       | Some c =>
           match mindcache_destroy c with
           | Ok _ => (Ok tt, mkBridge None false)
           | Throw e => (Throw e, b)
           end
       | None => (Ok tt, mkBridge None false)
       end)
    (fun _ => ret tt).

(** [async healthCheck ()] *)
Definition healthCheck : M (RustBridge Cache) Health :=
  fun b =>
    try_catch
      (if negb (isInitialized b) then ret status_not_initialized
       else getStats ;;; ret status_healthy)
      (fun error => fun b' =>
         (Ok (status_unhealthy (message error) (isInitialized b')), b'))
      b.

End WithLib.

End Lifecycle.

(* ===================================================================== *)
(** ** controllers/sessionController.js: creating a session              *)
(* ===================================================================== *)

Module SessionCreate.

Import Bridge BridgeSessions.
Local Open Scope js_scope.

(** [data] of the answer ([createdAt] is the wall clock and is not
    kept); [metadata] is carried as its JSON text. *)
Record CreateData := mkCreateData {
  cd_sessionId : string;
  cd_userId : string;
  cd_name : option string;
  cd_metadata : string
}.

Section WithLib.

Context {Cache : Type} (lib : RustLib Cache).

(** [createSession], route [POST /api/sessions]; [now] and [random36]
    are the clock and the random text the bridge reads. *)
Definition createSession (now : Z) (random36 : string)
  (userId : string) (name metadata : option string)
  : M (RustBridge Cache) (Response CreateData) :=
  try_catch
    (sessionId <- BridgeSessions.createSession now random36 userId name
                    metadata ;;
     ret (mkResponse 201
            (mkCreateData sessionId userId
               (Middleware.or_else name None)
               (match metadata with Some m => m | None => "{}" end))))
    (fun error =>
       throw (createError
                (or_string (message error) "Failed to create session")
                "SESSION_CREATE_ERROR" 500)).

End WithLib.

End SessionCreate.

(* ===================================================================== *)
(** ** controllers/memoryController.js: searching memories               *)
(* ===================================================================== *)

Module MemorySearch.

Import Bridge JsBuiltins MemoryController.
Local Open Scope js_scope.






Section WithLib.

(** [parseFloat] and the instant of [new Date(text)] are left open. *)
Context {Cache : Type} (lib : RustLib Cache)
  (parseFloat : option string -> option Q)
  (new_Date : string -> option Z).




End WithLib.

End MemorySearch.
(* ===================================================================== *)
(** ** Vocabulary of the properties                                      *)
(* ===================================================================== *)

Module Vocabulary.

Import Validation.

(** An analysis to run examples with: substring match, constant
    relevance, no topics, and a rational stand-in for the exponential
    decay (1 at age 0, decreasing, half-life constant 14 days). *)
Definition sample_analysis : Core.Analysis :=
  Core.mkAnalysis
    (fun delta =>
       (1209600000 / (1209600000 + inject_Z (Z.max 0 delta)))%Q)
    (fun q m => includes (content m) q)
    (fun _ _ => 1%Q)
    (fun _ _ => []).

(** The core right after initialisation with the default configuration,
    at instant 0. *)
Definition empty_cache : Core.Cache :=
  Core.mkCache Bridge.default_config 0 0 [].

(** A user or session id that is absent or the empty string. *)
Definition blank (x : option string) : Prop := x = None \/ x = Some "".

(** The id violations joi reports for an absent or empty id. *)
Definition missing_id (ds : list Detail) : bool :=
  has_detail F_userId any_required ds || has_detail F_userId string_empty ds
  || has_detail F_sessionId any_required ds
  || has_detail F_sessionId string_empty ds.

(** The optional number fields are acceptable: importance within [0,1],
    ttlHours an integer within [1,8760]. *)
Definition numbers_in_range (body : SaveBody) : Prop :=
  (forall q, sb_importance body = Some q ->
     Qle_bool 0 q = true /\ Qle_bool q 1 = true)
  /\ (forall q, sb_ttlHours body = Some q ->
        is_integer q = true /\ Qle_bool 1 q = true
        /\ Qle_bool q 8760 = true).

Fixpoint replicate (n : nat) (c : ascii) : string :=
  match n with
  | O => EmptyString
  | S n' => String c (replicate n' c)
  end.

(** A request with 100001 characters of content. *)
Definition body_100001 : SaveBody :=
  mkSaveBody (Some "u1") (Some "s1")
    (Some (replicate (Z.to_nat 100001) "a")) None None None.

Import Sdk.

(** A failed attempt that the loop does not take for a client error. *)
Definition retryable {A} (sdk : MindCacheSDK) (r : Fetched A) : Prop :=
  exists e, attempt_error sdk r = Some e /\ is_client_error e = false.

(** What [n] failing attempts starting at number [attempt] look like from
    outside: a sleep between two attempts, none after the last. *)
Fixpoint schedule (n : nat) (attempt : Z) : list Event :=
  match n with
  | O => []
  | S n' =>
      match n' with
      | O => [Attempt attempt]
      | S _ =>
          Attempt attempt :: Sleep (backoff attempt)
          :: schedule n' (attempt + 1)
      end
  end.

(** [n] failed attempts, each followed by its sleep. *)
Fixpoint retried (n : nat) (attempt : Z) : list Event :=
  match n with
  | O => []
  | S n' =>
      Attempt attempt :: Sleep (backoff attempt)
      :: retried n' (attempt + 1)
  end.

(** An SDK built with no options. *)
Definition default_sdk : MindCacheSDK := new_sdk (mkOptions None None).

Import Bridge MemoryController.

(** The bridge after one more save has been attempted on it. *)
Definition after_save {Cache : Type} (lib : RustLib Cache)
  (b : RustBridge Cache) (memory : SaveBody) : RustBridge Cache :=
  snd (Bridge.saveMemory lib (save_args memory) b).

(** The errors list of a bulk response; the key is left out when the list
    is empty. *)
Definition reported_errors (d : BulkData) : list BulkError :=
  match bd_errors d with
  | Some errors => errors
  | None => []
  end.

(** The memories of a list that belong to session [sid]. *)
Definition members (sid : string) (memories : list Memory) : list Memory :=
  filter (fun m => String.eqb (sessionId m) sid) memories.

(** Minimum and maximum of a list of instants. *)
Definition earliest (l : list Z) : option Z :=
  match l with
  | [] => None
  | t :: l' => Some (fold_left Z.min l' t)
  end.

Definition latest (l : list Z) : option Z :=
  match l with
  | [] => None
  | t :: l' => Some (fold_left Z.max l' t)
  end.

(** [sessions] lists the sessions of [memories]: one entry per distinct
    session id, with the count, the earliest and the latest timestamp of
    the session's memories. *)
Definition session_listing (memories : list Memory)
  (sessions : list Session) : Prop :=
  NoDup (map s_id sessions)
  /\ (forall sid, In sid (map s_id sessions)
                  <-> In sid (map sessionId memories))
  /\ (forall s, In s sessions ->
        s_memoryCount s = List.length (members (s_id s) memories)
        /\ s_createdAt s
           = earliest (map timestamp (members (s_id s) memories))
        /\ s_lastActive s
           = latest (map timestamp (members (s_id s) memories))).

(** An initialised bridge over the cache [c]. *)
Definition ready {Cache : Type} (c : Cache) : RustBridge Cache :=
  mkBridge (Some c) true.

(** A stored memory of 30 days' default life, never recalled so far. *)
Definition stored_memory (i u s text : string) (imp : Q) (t : Z) : Memory :=
  mkMemory i u s text "{}" imp t (t + 2592000000) t 0.

(** Scenario 2 of the spec: user u1 holds three memories of importance
    0.2, 0.5 and 0.9, written at the same instant. *)
Definition m02 : Memory := stored_memory "mem_0" "u1" "s1" "low" (2 # 10) 1000.
Definition m05 : Memory := stored_memory "mem_1" "u1" "s1" "mid" (5 # 10) 1000.
Definition m09 : Memory := stored_memory "mem_2" "u1" "s1" "high" (9 # 10) 1000.

Definition three_importances : Core.Cache :=
  Core.mkCache default_config 1000 3 [m02; m05; m09].

(** [recall({user: "u1", min_importance: m})] *)
Definition recall_at_least (m : Q) : RecallBody :=
  mkRecallBody (Some "u1") None None None None None (Some m) None.

(** [recall({user: "u1"})] *)
Definition recall_all : RecallBody :=
  mkRecallBody (Some "u1") None None None None None None None.

(** The save request of the README with an explicit importance of 0.9
    and a life of one hour. *)
Definition save_important_one_hour : SaveBody :=
  mkSaveBody (Some "u1") (Some "s1") (Some "I learned about memory decay")
    None (Some (9 # 10)) (Some (1 # 1)).

(** The input [put] receives for the arguments of a bridge save. *)
Definition put_input (a : SaveArgs) : Core.PutInput :=
  Core.mkPutInput (sa_userId a) (sa_sessionId a) (sa_content a)
    (sa_metadata a) None None.

(** Everything of a memory but its access metadata. *)
Definition payload (m : Memory)
  : string * string * string * string * string * Q * Z * Z :=
  (id m, userId m, sessionId m, content m, metadata m, importance m,
   timestamp m, expiresAt m).

(** The records held by the core behind a bridge. *)
Definition records (b : RustBridge Core.Cache)
  : option (list (string * string * string * string * string * Q * Z * Z)) :=
  option_map (fun c => map payload (Core.memories c)) (cachePtr b).


(** A cache with one session of one memory, owned by u1. *)
Definition one_session : Core.Cache :=
  Core.mkCache default_config 1000 1
    [stored_memory "mem_0" "u1" "s1" "note" (1 # 2) 1000].






Import BridgeSessions SessionHandlers Middleware.

(** The error [ensureInitialized] throws. *)
Definition not_initialized : Error :=
  newError "Rust bridge not initialized. Call initialize() first.".

(** A bridge that has no usable core behind it. *)
Definition uninitialized {Cache : Type} (b : RustBridge Cache) : Prop :=
  isInitialized b = false \/ cachePtr b = None.

(** [a] is [b] with some elements left out, the order kept. *)
Inductive Subseq {A : Type} : list A -> list A -> Prop :=
| Subseq_nil : Subseq [] []
| Subseq_skip (x : A) (a b : list A) : Subseq a b -> Subseq a (x :: b)
| Subseq_take (x : A) (a b : list A) : Subseq a b -> Subseq (x :: a) (x :: b).

(** The status and code the error handler answers with for an error named
    ["Error"], as [new Error] and [createError] make them. *)
Definition handled (e : Error) : Z * string :=
  (res_status (errorHandler "Error" e),
   eb_code (res_data (errorHandler "Error" e))).

(** Sum of the memory counts of a listing. *)
Definition total_count (sessions : list Session) : nat :=
  fold_right (fun s n => (s_memoryCount s + n)%nat) 0%nat sessions.

(** A session id the save handler refuses: absent, empty or white space
    only. *)
Definition blank_session (x : option string) : Prop :=
  match x with
  | None => True
  | Some s => trim_is_empty s = true
  end.

(** An error as [new Error] makes it: neither [code] nor [status]. *)
Definition plain (e : Error) : Prop := code e = None /\ status e = None.

(** The keys [validateApiKey] accepts:
    [(process.env.VALID_API_KEYS || '').split(',')]. *)
Definition valid_keys (validApiKeys : option string) : list string :=
  JsBuiltins.split_comma
    (match validApiKeys with Some v => v | None => "" end).

(** The error [validateApiKey] passes to [next]. *)
Definition invalid_api_key : Error :=
  mkError "Invalid or missing API key" (Some "INVALID_API_KEY") (Some 401).

(** [s] contains a comma. *)
Definition has_comma (s : string) : Prop :=
  In ","%char (list_ascii_of_string s).

End Vocabulary.
(* ===================================================================== *)
(** * Properties                                                         *)
(* ===================================================================== *)

(** ** Validation of a save request *)

Section SaveValidation.

Import Validation Vocabulary.

Lemma jsLength_nonneg (s : string) : 0 <= jsLength s.
Proof. induction s; cbn [jsLength]; lia. Qed.

Lemma jsLength_cons (c : ascii) (s : string) : 1 <= jsLength (String c s).
Proof. cbn [jsLength]. pose proof (jsLength_nonneg s). lia. Qed.

Lemma has_detail_app (f : Field) (r : Rule) (a b : list Detail) :
  has_detail f r (a ++ b) = has_detail f r a || has_detail f r b.
Proof. unfold has_detail. apply existsb_app. Qed.

Lemma string_details_field (f f' : Field) (r : Rule) (lo hi : Z)
  (v : option string) :
  Field_eqb f' f = false ->
  has_detail f r (string_required_min_max f' lo hi v) = false.
Proof.
  intros E. unfold string_required_min_max.
  destruct v as [[|c s]|]; [simpl; rewrite E; reflexivity | |
                            simpl; rewrite E; reflexivity].
  destruct (_ <? lo); destruct (hi <? _); simpl; rewrite ?E; reflexivity.
Qed.

Lemma number_details_field (f f' : Field) (r : Rule) (lo hi : Q)
  (v : option Q) :
  Field_eqb f' f = false ->
  has_detail f r (number_min_max_optional f' lo hi v) = false.
Proof.
  intros E. unfold number_min_max_optional.
  destruct v as [q|]; [|reflexivity].
  destruct (Qle_bool lo q); destruct (Qle_bool q hi); simpl; rewrite ?E;
    reflexivity.
Qed.

Lemma integer_details_field (f f' : Field) (r : Rule) (lo hi : Q)
  (v : option Q) :
  Field_eqb f' f = false ->
  has_detail f r (number_integer_min_max_optional f' lo hi v) = false.
Proof.
  intros E. unfold number_integer_min_max_optional.
  destruct v as [q|]; [|reflexivity].
  rewrite has_detail_app, number_details_field by exact E.
  destruct (is_integer q); simpl; rewrite ?E; reflexivity.
Qed.

Lemma string_max_detail (f : Field) (lo hi : Z) (v : option string) :
  0 <= hi ->
  has_detail f string_max (string_required_min_max f lo hi v) = true <->
  exists t, v = Some t /\ hi < jsLength t.
Proof.
  intros Hhi.
  assert (R : Field_eqb f f = true) by (destruct f; reflexivity).
  unfold string_required_min_max.
  destruct v as [[|c s]|].
  - simpl. rewrite R. simpl. split; [discriminate|].
    intros [t [E L]]. inversion E; subst. simpl in L. lia.
  - destruct (_ <? lo);
      destruct (Z.ltb_spec hi (jsLength (String c s))) as [L|L];
      simpl; rewrite ?R; simpl; split; intros X; try discriminate;
      try reflexivity; try (eexists; split; [reflexivity|assumption]);
      destruct X as [t [E L']]; inversion E; subst; lia.
  - simpl. rewrite R. simpl. split; [discriminate|].
    intros [t [E L]]. discriminate.
Qed.

Lemma string_blank_detail (f : Field) (lo hi : Z) (v : option string) :
  has_detail f any_required (string_required_min_max f lo hi v)
  || has_detail f string_empty (string_required_min_max f lo hi v) = true
  <-> blank v.
Proof.
  assert (R : Field_eqb f f = true) by (destruct f; reflexivity).
  unfold string_required_min_max, blank.
  destruct v as [[|c s]|].
  - simpl. rewrite R. simpl. split; auto.
  - destruct (_ <? lo); destruct (hi <? _); simpl; rewrite ?R; simpl;
      (split; [discriminate | intros [H|H]; discriminate]).
  - simpl. rewrite R. simpl. split; auto.
Qed.

Lemma content_max_detail (body : SaveBody) :
  has_detail F_content string_max (memorySave body) = true <->
  exists t, sb_content body = Some t /\ 100000 < jsLength t.
Proof.
  unfold memorySave. rewrite !has_detail_app.
  rewrite !string_details_field by reflexivity.
  rewrite number_details_field, integer_details_field by reflexivity.
  rewrite !orb_false_r. simpl.
  apply string_max_detail. lia.
Qed.

Lemma missing_id_detail (body : SaveBody) :
  missing_id (memorySave body) = true <->
  blank (sb_userId body) \/ blank (sb_sessionId body).
Proof.
  unfold missing_id, memorySave. rewrite !has_detail_app.
  rewrite !(string_details_field F_userId F_sessionId) by reflexivity.
  rewrite !(string_details_field F_userId F_content) by reflexivity.
  rewrite !(string_details_field F_sessionId F_userId) by reflexivity.
  rewrite !(string_details_field F_sessionId F_content) by reflexivity.
  rewrite !number_details_field, !integer_details_field by reflexivity.
  rewrite !orb_false_r. simpl.
  rewrite <- (string_blank_detail F_userId 1 255).
  rewrite <- (string_blank_detail F_sessionId 1 255).
  rewrite <- orb_assoc. rewrite orb_true_iff. reflexivity.
Qed.

Lemma string_rule_passes (f : Field) (lo hi : Z) (s : string) :
  1 <= lo -> lo <= jsLength s <= hi ->
  string_required_min_max f lo hi (Some s) = [].
Proof.
  intros Hlo [H1 H2]. unfold string_required_min_max.
  destruct s as [|c s]; [simpl in H1; lia|].
  destruct (Z.ltb_spec (jsLength (String c s)) lo); [lia|].
  destruct (Z.ltb_spec hi (jsLength (String c s))); [lia|].
  reflexivity.
Qed.

Lemma memorySave_accepts (body : SaveBody) (u s t : string) :
  sb_userId body = Some u -> sb_sessionId body = Some s ->
  sb_content body = Some t ->
  1 <= jsLength u <= 255 -> 1 <= jsLength s <= 255 ->
  1 <= jsLength t <= 100000 ->
  numbers_in_range body ->
  validateMemorySave body = inr body.
Proof.
  intros Eu Es Et Hu Hs Ht [Hi Hh].
  unfold validateMemorySave, createValidator, memorySave.
  rewrite Eu, Es, Et.
  rewrite !string_rule_passes by lia. simpl.
  unfold number_integer_min_max_optional, number_min_max_optional.
  destruct (sb_importance body) as [q|].
  - destruct (Hi q eq_refl) as [A B]. rewrite A, B. simpl.
    destruct (sb_ttlHours body) as [h|]; [|reflexivity].
    destruct (Hh h eq_refl) as [C [D E]]. rewrite C, D, E. reflexivity.
  - simpl. destruct (sb_ttlHours body) as [h|]; [|reflexivity].
    destruct (Hh h eq_refl) as [C [D E]]. rewrite C, D, E. reflexivity.
Qed.

End SaveValidation.

Import Validation Vocabulary.

(** C5 (as amended).  A save request is rejected with a content-length
    violation exactly when its content is longer than 100000 characters, and
    with a missing-id violation exactly when user_id or session_id is absent
    or empty; content of 1 to 100000 characters with user and session ids of
    1 to 255 characters, and optional numbers in range, passes validation
    and reaches the handler unchanged. *)
Theorem memorySave_limits (body : SaveBody) :
  (has_detail F_content string_max (memorySave body) = true <->
   exists t, sb_content body = Some t /\ 100000 < jsLength t)
  /\ (missing_id (memorySave body) = true <->
      blank (sb_userId body) \/ blank (sb_sessionId body))
  /\ (forall u s t,
        sb_userId body = Some u -> sb_sessionId body = Some s ->
        sb_content body = Some t ->
        1 <= jsLength u <= 255 -> 1 <= jsLength s <= 255 ->
        1 <= jsLength t <= 100000 ->
        numbers_in_range body ->
        validateMemorySave body = inr body).
Proof.
  split; [apply content_max_detail|].
  split; [apply missing_id_detail|].
  intros u s t. apply memorySave_accepts.
Qed.

(** C5, witness: a request with one-character ids, a short content, an
    importance of 0.8 and a ttl of 720 hours is accepted. *)
Lemma memorySave_limits_witness :
  validateMemorySave
    (mkSaveBody (Some "u") (Some "s") (Some "I learned about memory decay")
       None (Some (8 # 10)) (Some (720 # 1)))
  = inr (mkSaveBody (Some "u") (Some "s")
           (Some "I learned about memory decay") None (Some (8 # 10))
           (Some (720 # 1))).
Proof.
  apply (proj2 (proj2 (memorySave_limits _)) "u" "s"
           "I learned about memory decay");
    try reflexivity; try (vm_compute; split; discriminate).
  split; intros q E; inversion E; subst; vm_compute; auto.
Defined.

(** C5, counterexample: 100001 characters of content are within 100 KiB
    (102400 bytes) and the ids are not empty, yet validation rejects the
    request for its content length. *)
Lemma memorySave_rejects_100001 :
  sb_content body_100001 = Some (replicate (Z.to_nat 100001) "a")
  /\ jsLength (replicate (Z.to_nat 100001) "a") <= 102400
  /\ ~ blank (sb_userId body_100001) /\ ~ blank (sb_sessionId body_100001)
  /\ validateMemorySave body_100001 = inl [mkDetail F_content string_max].
Proof.
  split; [reflexivity|].
  split; [vm_compute; discriminate|].
  split; [intros [H|H]; discriminate|].
  split; [intros [H|H]; discriminate|].
  vm_compute. reflexivity.
Qed.

(** ** The SDK's request loop *)

Section RequestLoop.

Import Sdk.

Context {A : Type} (sdk : MindCacheSDK) (fetch : Z -> Fetched A).

Lemma retryable_error (n : Z) :
  retryable sdk (fetch n) ->
  exists e, attempt_error sdk (fetch n) = Some e
            /\ is_client_error e = false
            /\ (forall d, fetch n <> Replied d).
Proof.
  intros [e [E C]]. exists e. repeat split; auto.
  intros d F. rewrite F in E. discriminate.
Qed.

(** One iteration on a failed attempt that is not a client error. *)
Lemma request_loop_step (fuel : nat) (attempt : Z)
  (lastError : option SdkError) (log : list Event) :
  attempt <= retries sdk ->
  retryable sdk (fetch attempt) ->
  request_loop sdk fetch (S fuel) attempt lastError log =
  request_loop sdk fetch fuel (attempt + 1)
    (attempt_error sdk (fetch attempt))
    (if attempt <? retries sdk
     then (log ++ [Attempt attempt]) ++ [Sleep (backoff attempt)]
     else log ++ [Attempt attempt])%list.
Proof.
  intros Hle R. destruct (retryable_error _ R) as [e [E [C N]]].
  cbn [request_loop].
  destruct (Z.leb_spec attempt (retries sdk)); [|lia].
  destruct (fetch attempt) eqn:F;
    try (exfalso; eapply N; reflexivity);
    rewrite E, C; destruct (attempt <? retries sdk); reflexivity.
Qed.

Lemma request_loop_exhausts (k : nat) :
  (forall n, retryable sdk (fetch n)) ->
  forall (fuel : nat) (attempt : Z) lastError (log : list Event),
    retries sdk = attempt + Z.of_nat k ->
    (S k < fuel)%nat ->
    request_loop sdk fetch fuel attempt lastError log =
    (inr (attempt_error sdk (fetch (retries sdk))),
     (log ++ schedule (S k) attempt)%list).
Proof.
  intros R. induction k as [|k IH]; intros fuel attempt lastError log E F.
  - destruct fuel as [|[|fuel]]; try lia.
    rewrite request_loop_step by (auto; lia).
    destruct (Z.ltb_spec attempt (retries sdk)); [lia|].
    cbn [request_loop].
    destruct (Z.leb_spec (attempt + 1) (retries sdk)); [lia|].
    replace attempt with (retries sdk) by lia. reflexivity.
  - destruct fuel as [|fuel]; try lia.
    rewrite request_loop_step by (auto; lia).
    destruct (Z.ltb_spec attempt (retries sdk)); [|lia].
    rewrite IH by lia.
    f_equal. rewrite <- !app_assoc. reflexivity.
Qed.

(** [k] retryable failures in a row, each before the last allowed
    attempt, are slept over one after the other. *)
Lemma request_loop_retried (k : nat) :
  forall (fuel : nat) (attempt : Z) lastError (log : list Event),
    (forall i, attempt <= i < attempt + Z.of_nat k ->
               retryable sdk (fetch i)) ->
    attempt + Z.of_nat k <= retries sdk ->
    exists lastError',
      request_loop sdk fetch (k + fuel) attempt lastError log =
      request_loop sdk fetch fuel (attempt + Z.of_nat k) lastError'
        (log ++ retried k attempt)%list.
Proof.
  induction k as [|k IH]; intros fuel attempt lastError log R B.
  - exists lastError. rewrite Z.add_0_r, app_nil_r. reflexivity.
  - cbn [Nat.add]. rewrite request_loop_step by (try apply R; lia).
    destruct (Z.ltb_spec attempt (retries sdk)); [|lia].
    destruct (IH fuel (attempt + 1) (attempt_error sdk (fetch attempt))
                ((log ++ [Attempt attempt]) ++ [Sleep (backoff attempt)])%list)
      as [le E].
    + intros i Hi. apply R. lia.
    + lia.
    + exists le. rewrite E.
      replace (attempt + Z.of_nat (S k)) with (attempt + 1 + Z.of_nat k)
        by lia.
      cbn [retried]. rewrite <- !app_assoc. reflexivity.
Qed.

(** The first attempt that succeeds or meets a client error ends the
    loop. *)
Lemma request_stops (k : nat) :
  (forall i, 1 <= i < 1 + Z.of_nat k -> retryable sdk (fetch i)) ->
  1 + Z.of_nat k <= retries sdk ->
  (forall d, fetch (1 + Z.of_nat k) = Replied d ->
     request sdk fetch
     = (inl d, (retried k 1 ++ [Attempt (1 + Z.of_nat k)])%list))
  /\ (forall e, attempt_error sdk (fetch (1 + Z.of_nat k)) = Some e ->
        is_client_error e = true ->
        request sdk fetch
        = (inr (Some e), (retried k 1 ++ [Attempt (1 + Z.of_nat k)])%list)).
Proof.
  intros R B. unfold request.
  replace (S (Z.to_nat (retries sdk)))
    with (k + S (Z.to_nat (retries sdk) - k))%nat by lia.
  destruct (request_loop_retried k (S (Z.to_nat (retries sdk) - k)) 1 None
              [] R B) as [le E].
  rewrite E. cbn [request_loop app].
  destruct (Z.leb_spec (1 + Z.of_nat k) (retries sdk)); [|lia].
  split.
  - intros d F. rewrite F. reflexivity.
  - intros e AE C. destruct (fetch (1 + Z.of_nat k)); try discriminate;
      rewrite AE, C; reflexivity.
Qed.

End RequestLoop.

Import Sdk.

(** C9 (as amended).  A failed attempt that is not a 4xx response (a 5xx
    response, a network failure or the SDK's own timeout) is retried until
    [retries] attempts have been made (3 by default), sleeping
    min(1000 * 2^(attempt-1), 10000) ms after each attempt but the last
    (1000 ms, then 2000 ms), and then the last error is thrown; an error with
    a 4xx status is thrown at once, without a further attempt or sleep. *)
Theorem request_retry_policy {A : Type} (sdk : MindCacheSDK)
  (fetch : Z -> Fetched A) :
  1 <= retries sdk ->
  ((forall n, retryable sdk (fetch n)) ->
   request sdk fetch =
   (inr (attempt_error sdk (fetch (retries sdk))),
    schedule (Z.to_nat (retries sdk)) 1))
  /\ (forall (k : nat) e,
        (forall i, 1 <= i < 1 + Z.of_nat k -> retryable sdk (fetch i)) ->
        1 + Z.of_nat k <= retries sdk ->
        attempt_error sdk (fetch (1 + Z.of_nat k)) = Some e ->
        is_client_error e = true ->
        request sdk fetch
        = (inr (Some e), (retried k 1 ++ [Attempt (1 + Z.of_nat k)])%list))
  /\ retries default_sdk = 3
  /\ schedule 3 1 = [Attempt 1; Sleep 1000; Attempt 2; Sleep 2000; Attempt 3].
Proof.
  intros H. split; [|split; [|split; reflexivity]].
  - intros R. unfold request.
    destruct (Z.to_nat (retries sdk)) as [|k] eqn:K; [lia|].
    rewrite (request_loop_exhausts sdk fetch k R) by lia.
    reflexivity.
  - intros k e R B. apply (proj2 (request_stops sdk fetch k R B)).
Qed.

(** C9, witness: with the default options and a server that always answers
    500, three attempts are made with sleeps of 1000 and 2000 ms. *)
Lemma request_retry_policy_witness :
  request default_sdk (fun _ => @Failed_status unit 500 "Internal Server Error")
  = (inr (Some (mkSdkError "Internal Server Error" (Some 500))),
     [Attempt 1; Sleep 1000; Attempt 2; Sleep 2000; Attempt 3]).
Proof.
  apply (proj1 (request_retry_policy default_sdk
                  (fun _ => @Failed_status unit 500 "Internal Server Error")
                  ltac:(vm_compute; discriminate))).
  intros n. eexists. split; reflexivity.
Defined.

(** A 404 on the first attempt is surfaced at once; a 404 after a 500 is
    surfaced after one sleep. *)
Example request_404_not_retried :
  request default_sdk (fun _ => @Failed_status unit 404 "Session not found")
  = (inr (Some (mkSdkError "Session not found" (Some 404))), [Attempt 1])
  /\ request default_sdk
       (fun n => if n =? 1 then @Failed_status unit 500 "Io"
                 else Failed_status 404 "Session not found")
     = (inr (Some (mkSdkError "Session not found" (Some 404))),
        [Attempt 1; Sleep 1000; Attempt 2]).
Proof. split; reflexivity. Qed.

(** C9, counterexample: against a server that always answers 500 the
    default SDK makes three attempts and sleeps 1000 then 2000 ms, not 50
    then 200 ms; and a request that always times out is attempted three
    times as well. *)
Lemma request_backoff_is_not_50_200 :
  sleeps (snd (request default_sdk (fun _ => @Failed_status unit 500 "Io")))
  = [1000; 2000]
  /\ sleeps (snd (request default_sdk (fun _ => @Failed_status unit 500 "Io")))
     <> [50; 200]
  /\ attempts (snd (request default_sdk (fun _ => @Failed_status unit 500 "Io")))
     = [1; 2; 3]
  /\ attempts (snd (request default_sdk (fun _ => @Aborted unit))) = [1; 2; 3].
Proof.
  vm_compute. repeat split; try reflexivity. discriminate.
Qed.

(** ** Bulk save *)

Section BulkSave.

Import Bridge MemoryController.

Context {Cache : Type} (lib : RustLib Cache).

Lemma bulk_loop_accounts (rest : list SaveBody) :
  forall (i : nat) (results : list BulkResult) (errors : list BulkError)
         (b : RustBridge Cache),
  exists results' errors',
    bulk_loop lib i rest results errors b =
    (Ok ((results ++ results')%list, (errors ++ errors')%list),
     fold_left (after_save lib) rest b)
    /\ Permutation (map br_index results' ++ map be_index errors')
         (seq i (List.length rest)).
Proof.
  induction rest as [|memory rest IH]; intros i results errors b.
  - exists [], []. rewrite !app_nil_r. split; [reflexivity|constructor].
  - cbn [bulk_loop fold_left List.length seq].
    unfold Js.bind at 1, try_catch, Js.bind at 1, after_save at 2.
    destruct (Bridge.saveMemory lib (save_args memory) b) as [[memoryId|e] b1];
      cbn [Js.ret fst snd].
    + destruct (IH (S i)
                  (results ++ [mkBulkResult i memoryId (sb_userId memory)
                                 (sb_sessionId memory)])%list errors b1)
        as [rs [es [E P]]].
      eexists (_ :: rs), es. rewrite E, <- app_assoc. split; [reflexivity|].
      cbn. apply perm_skip. exact P.
    + destruct (IH (S i) results
                  (errors ++ [mkBulkError i (message e) memory])%list b1)
        as [rs [es [E P]]].
      exists rs, (mkBulkError i (message e) memory :: es).
      rewrite E, <- app_assoc. split; [reflexivity|].
      cbn. apply Permutation_sym, Permutation_cons_app, Permutation_sym.
      exact P.
Qed.

End BulkSave.

Import Bridge MemoryController.

(** C10.  A bulk save attempts the memories one at a time in input order,
    whatever the earlier attempts did (the bridge ends in the state reached
    by saving each input in turn); it always answers; every input index is
    reported exactly once, in results or in errors; and the summary has
    total = successful + failed = number of inputs. *)
Theorem bulkSaveMemories_accounts {Cache : Type} (lib : RustLib Cache)
  (memories : list SaveBody) (b : RustBridge Cache) :
  exists resp,
    bulkSaveMemories lib memories b =
    (Ok resp, fold_left (after_save lib) memories b)
    /\ Permutation
         (map br_index (bd_results (res_data resp))
          ++ map be_index (reported_errors (res_data resp)))
         (seq 0 (List.length memories))
    /\ bd_total (res_data resp) = List.length memories
    /\ bd_successful (res_data resp) = List.length (bd_results (res_data resp))
    /\ bd_failed (res_data resp)
       = List.length (reported_errors (res_data resp))
    /\ (bd_successful (res_data resp) + bd_failed (res_data resp))%nat
       = bd_total (res_data resp).
Proof.
  destruct (bulk_loop_accounts lib memories 0 [] [] b) as [rs [es [E P]]].
  unfold bulkSaveMemories, try_catch, Js.bind. rewrite E.
  cbn [app fst snd Js.ret].
  eexists. split; [reflexivity|].
  cbn [res_data bd_results bd_total bd_successful bd_failed].
  assert (R : reported_errors
                (mkBulkData (List.length es =? 0)%nat rs (List.length memories)
                   (List.length rs) (List.length es)
                   (if (0 <? List.length es)%nat then Some es else None)) = es).
  { unfold reported_errors. cbn [bd_errors]. destruct es; reflexivity. }
  rewrite R. repeat split; auto.
  apply Permutation_length in P.
  rewrite length_app, !length_map, length_seq in P. exact P.
Qed.

(** ** Sessions reconstructed from memories *)

Section SessionListing.

Lemma map_has_In (m : list Session) (key : string) :
  map_has m key = true <-> In key (map s_id m).
Proof.
  induction m as [|s m IH]; simpl.
  - split; [discriminate|tauto].
  - destruct (String.eqb_spec (s_id s) key) as [E|N].
    + split; auto.
    + rewrite IH. split; [auto|intros [H|H]; [contradiction|exact H]].
Qed.

Lemma map_update_ids (m : list Session) (key : string)
  (f : Session -> Session) :
  (forall s, s_id (f s) = s_id s) ->
  map s_id (map_update m key f) = map s_id m.
Proof.
  intros F. induction m as [|s m IH]; simpl; [reflexivity|].
  destruct (String.eqb (s_id s) key); simpl; [rewrite F | rewrite IH];
    reflexivity.
Qed.

Lemma map_update_In (m : list Session) (key : string)
  (f : Session -> Session) (s : Session) :
  NoDup (map s_id m) ->
  In s (map_update m key f) ->
  (In s m /\ s_id s <> key)
  \/ (exists s0, In s0 m /\ s_id s0 = key /\ s = f s0).
Proof.
  induction m as [|x m IH]; simpl; [tauto|].
  intros ND H. inversion ND as [|? ? NI ND']; subst.
  destruct (String.eqb_spec (s_id x) key) as [E|N].
  - destruct H as [H|H].
    + right. exists x. auto.
    + left. split; [auto|].
      intros K. apply NI. rewrite E, <- K. apply in_map. exact H.
  - destruct H as [H|H].
    + left. subst. auto.
    + destruct (IH ND' H) as [[A B]|[s0 [A [B C]]]].
      * left. auto.
      * right. exists s0. auto.
Qed.

Lemma count_memory_id (memory : Memory) (s : Session) :
  s_id (count_memory memory s) = s_id s.
Proof.
  unfold count_memory. simpl.
  repeat match goal with
         | |- context [if ?c then _ else _] => destruct c; simpl
         end; reflexivity.
Qed.

Lemma members_snoc (sid : string) (p : list Memory) (m : Memory) :
  members sid (p ++ [m]) =
  (members sid p ++ if String.eqb (sessionId m) sid then [m] else [])%list.
Proof. unfold members. rewrite filter_app. reflexivity. Qed.

Lemma members_nonempty (sid : string) (p : list Memory) :
  In sid (map sessionId p) -> members sid p <> [].
Proof.
  intros H. apply in_map_iff in H. destruct H as [m [E I]].
  assert (In m (members sid p)).
  { apply filter_In. split; [exact I|]. apply String.eqb_eq. exact E. }
  intros K. rewrite K in H. contradiction.
Qed.

Lemma earliest_snoc (l : list Z) (t : Z) :
  earliest (l ++ [t]) =
  Some (match earliest l with Some a => Z.min a t | None => t end).
Proof.
  destruct l as [|x l]; simpl; [reflexivity|].
  rewrite fold_left_app. reflexivity.
Qed.

Lemma latest_snoc (l : list Z) (t : Z) :
  latest (l ++ [t]) =
  Some (match latest l with Some a => Z.max a t | None => t end).
Proof.
  destruct l as [|x l]; simpl; [reflexivity|].
  rewrite fold_left_app. reflexivity.
Qed.

(** The entry of a session after one more of its memories is counted. *)
Lemma count_memory_fields (memory : Memory) (s : Session) (c a : Z) :
  s_createdAt s = Some c -> s_lastActive s = Some a ->
  s_memoryCount (count_memory memory s) = S (s_memoryCount s)
  /\ s_createdAt (count_memory memory s) = Some (Z.min c (timestamp memory))
  /\ s_lastActive (count_memory memory s) = Some (Z.max a (timestamp memory)).
Proof.
  intros C A. unfold count_memory, date_gt, date_lt. simpl. rewrite A.
  destruct (Z.ltb_spec a (timestamp memory)); simpl; rewrite C;
    destruct (Z.ltb_spec (timestamp memory) c); simpl;
    repeat split; auto; f_equal; lia.
Qed.

Lemma members_empty (sid : string) (p : list Memory) :
  ~ In sid (map sessionId p) -> members sid p = [].
Proof.
  intros H. unfold members. induction p as [|m p IH]; simpl; [reflexivity|].
  destruct (String.eqb_spec (sessionId m) sid) as [E|N].
  - exfalso. apply H. left. exact E.
  - apply IH. intros K. apply H. right. exact K.
Qed.

Lemma members_other (sid : string) (p : list Memory) (m : Memory) :
  sid <> sessionId m -> members sid (p ++ [m]) = members sid p.
Proof.
  intros N. rewrite members_snoc.
  destruct (String.eqb_spec (sessionId m) sid) as [E|_];
    [congruence | apply app_nil_r].
Qed.

Lemma members_same (p : list Memory) (m : Memory) :
  members (sessionId m) (p ++ [m]) = (members (sessionId m) p ++ [m])%list.
Proof. rewrite members_snoc, String.eqb_refl. reflexivity. Qed.

(** One step of the loop keeps the listing exact. *)
Lemma visit_memory_listing (p : list Memory) (ss : list Session)
  (m : Memory) :
  session_listing p ss -> session_listing (p ++ [m]) (visit_memory ss m).
Proof.
  intros [ND [IDS FIELDS]].
  unfold visit_memory.
  destruct (map_has ss (sessionId m)) eqn:HAS; cbn [negb].
  - (* the session is already in the map *)
    apply map_has_In in HAS.
    split; [|split].
    + rewrite map_update_ids by apply count_memory_id. exact ND.
    + intros sid. rewrite map_update_ids by apply count_memory_id.
      rewrite map_app, in_app_iff, <- IDS. simpl.
      split; [auto|]. intros [H|[H|[]]]; [exact H|]. subst. exact HAS.
    + intros s H. apply map_update_In in H; [|exact ND].
      destruct H as [[H N]|[s0 [H [E F]]]].
      * rewrite members_other by exact N.
        apply FIELDS. exact H.
      * destruct (FIELDS s0 H) as [CNT [CR LA]].
        assert (NE : members (s_id s0) p <> []).
        { apply members_nonempty, IDS, in_map, H. }
        subst s. rewrite count_memory_id, E, members_same.
        rewrite map_app, length_app. cbn [map].
        rewrite earliest_snoc, latest_snoc.
        rewrite E in CNT, CR, LA, NE.
        destruct (members (sessionId m) p) as [|x l] eqn:M;
          [contradiction|].
        destruct (count_memory_fields m s0 _ _ CR LA) as [A [B C]].
        rewrite A, B, C, CNT. cbn [earliest latest map List.length].
        repeat split. rewrite Nat.add_1_r. reflexivity.
  - (* first memory of its session *)
    assert (NI : ~ In (sessionId m) (map s_id ss)).
    { intros K. apply map_has_In in K. congruence. }
    assert (ND' : NoDup (map s_id
               (ss ++ [mkSession (sessionId m) (userId m)
                         (Some (timestamp m)) (Some (timestamp m)) 0]))).
    { rewrite map_app. simpl.
      apply (Permutation_NoDup (Permutation_cons_append _ _)).
      constructor; assumption. }
    split; [|split].
    + rewrite map_update_ids by apply count_memory_id. exact ND'.
    + intros sid. rewrite map_update_ids by apply count_memory_id.
      rewrite !map_app, !in_app_iff, <- IDS. simpl. tauto.
    + intros s H. apply map_update_In in H; [|exact ND'].
      destruct H as [[H N]|[s0 [H [E F]]]].
      * apply in_app_iff in H. destruct H as [H|[H|[]]].
        -- rewrite members_other by exact N.
           apply FIELDS. exact H.
        -- subst s. simpl in N. contradiction.
      * apply in_app_iff in H. destruct H as [H|[H|[]]].
        -- exfalso. apply NI. rewrite <- E. apply in_map. exact H.
        -- subst s0 s. rewrite count_memory_id. cbn [s_id].
           rewrite members_same.
           rewrite (members_empty (sessionId m) p)
             by (intros K; apply NI, IDS; exact K).
           destruct (count_memory_fields m
                       (mkSession (sessionId m) (userId m)
                          (Some (timestamp m)) (Some (timestamp m)) 0)
                       (timestamp m) (timestamp m) eq_refl eq_refl)
             as [A [B C]].
           rewrite A, B, C, Z.min_id, Z.max_id. repeat split.
Qed.

Lemma group_sessions_listing (memories : list Memory) :
  session_listing memories (group_sessions memories).
Proof.
  unfold group_sessions.
  induction memories as [|m p IH] using rev_ind.
  - split; [constructor|]. split; [tauto|]. intros s [].
  - rewrite fold_left_app. apply visit_memory_listing. exact IH.
Qed.

End SessionListing.


(** ** The core: ranking *)

Section Ranking.

Import Core.

Variable an : Analysis.

Lemma insert_ranked_perm (now : Z) (query : option string) (m : Memory)
  (l : list Memory) :
  Permutation (insert_ranked an now query m l) (m :: l).
Proof.
  induction l as [|x l IH]; simpl; [apply Permutation_refl|].
  destruct (before an now query x m).
  - eapply perm_trans; [apply perm_skip, IH | apply perm_swap].
  - apply Permutation_refl.
Qed.

Lemma rank_perm (now : Z) (query : option string) (l : list Memory) :
  Permutation (rank an now query l) l.
Proof.
  unfold rank. induction l as [|m l IH]; simpl; [constructor|].
  eapply perm_trans; [apply insert_ranked_perm | apply perm_skip, IH].
Qed.

Lemma rank_length (now : Z) (query : option string) (l : list Memory) :
  List.length (rank an now query l) = List.length l.
Proof. apply Permutation_length, rank_perm. Qed.

(** A limit that covers all candidates trims nothing. *)
Lemma firstn_rank_perm (n : nat) (now : Z) (query : option string)
  (l : list Memory) :
  (List.length l <= n)%nat ->
  Permutation (firstn n (rank an now query l)) l.
Proof.
  intros H. rewrite firstn_all2 by (rewrite rank_length; exact H).
  apply rank_perm.
Qed.

End Ranking.

(** ** Recall and the importance filter *)

(** The bridge never reads [minImportance], nor the date bounds or the
    keywords: two filters that agree on user, query, session and limit are
    recalled alike, whatever the core. *)
Lemma recallMemories_reads_four_fields {Cache : Type} (lib : RustLib Cache)
  (f g : Filter) :
  f_userId f = f_userId g -> f_query f = f_query g ->
  f_sessionId f = f_sessionId g -> f_limit f = f_limit g ->
  Bridge.recallMemories lib f = Bridge.recallMemories lib g.
Proof.
  intros U Q S L. unfold Bridge.recallMemories. rewrite U, Q, S, L.
  reflexivity.
Qed.

(** C1, at the failing input.  With memories of importance 0.2, 0.5 and
    0.9 stored for u1, [recall({user: "u1", min_importance: 0.4})] answers
    with all three memories, the one of importance 0.2 included, exactly as
    the recall without threshold does: the threshold never reaches the
    core. *)
Theorem recall_keeps_memories_below_min_importance (an : Core.Analysis) :
  exists resp b',
    MemoryController.recallMemories (Core.lib an) (recall_at_least (4 # 10))
      (ready three_importances) = (Ok resp, b')
    /\ Permutation (rd_memories (res_data resp)) [m02; m05; m09]
    /\ rd_count (res_data resp) = 3%nat
    /\ Qlt (importance m02) (4 # 10)
    /\ MemoryController.recallMemories (Core.lib an) (recall_at_least (4 # 10))
         (ready three_importances)
       = MemoryController.recallMemories (Core.lib an) recall_all
           (ready three_importances).
Proof.
  assert (E : MemoryController.recallMemories (Core.lib an)
                (recall_at_least (4 # 10)) (ready three_importances)
              = MemoryController.recallMemories (Core.lib an) recall_all
                  (ready three_importances)).
  { unfold MemoryController.recallMemories. cbv zeta.
    rewrite (recallMemories_reads_four_fields (Core.lib an)
               (recall_filter (recall_at_least (4 # 10)))
               (recall_filter recall_all)) by reflexivity.
    reflexivity. }
  rewrite E.
  unfold MemoryController.recallMemories, Bridge.recallMemories, rethrow,
    try_catch, Js.bind.
  cbn [ensureInitialized ready isInitialized cachePtr negb orb call
         Core.lib mindcache_recall recall_filter recall_all rb_userId
         rb_query rb_sessionId rb_limit f_userId f_query f_sessionId f_limit
         truthy_string or_Z].
  unfold Core.recall. cbn [Core.present Core.null_on_error Js.ret].
  change (filter _ (Core.memories three_importances)) with [m02; m05; m09].
  change (Z.to_nat 50) with 50%nat.
  eexists. eexists. split; [reflexivity|].
  cbn [res_data rd_memories rd_count].
  assert (P : Permutation
                (firstn 50 (Core.rank an (Core.clock three_importances) None
                              [m02; m05; m09])) [m02; m05; m09]).
  { apply firstn_rank_perm. simpl. lia. }
  split; [exact P|].
  split; [rewrite (Permutation_length P); reflexivity|].
  split; reflexivity.
Qed.

(** ** Saving *)

(** The bridge never reads [importance] nor [ttlHours]: arguments that
    agree on user, session, content and metadata are saved alike, whatever
    the core. *)
Lemma saveMemory_reads_four_fields {Cache : Type} (lib : RustLib Cache)
  (a a' : SaveArgs) :
  sa_userId a = sa_userId a' -> sa_sessionId a = sa_sessionId a' ->
  sa_content a = sa_content a' -> sa_metadata a = sa_metadata a' ->
  Bridge.saveMemory lib a = Bridge.saveMemory lib a'.
Proof.
  intros U S C M. unfold Bridge.saveMemory. rewrite U, S, C, M. reflexivity.
Qed.

(** A successful save of the controller is a successful save of the
    bridge. *)
Lemma controller_save_ok {Cache : Type} (lib : RustLib Cache)
  (body : SaveBody) (b b' : RustBridge Cache) (resp : Response SaveData) :
  MemoryController.saveMemory lib body b = (Ok resp, b') ->
  Bridge.saveMemory lib (save_args body) b = (Ok (sd_memoryId (res_data resp)), b')
  /\ res_status resp = 201
  /\ exists s, sb_sessionId body = Some s /\ trim_is_empty s = false.
Proof.
  unfold MemoryController.saveMemory, try_catch, Js.bind.
  destruct (sb_sessionId body) as [s|]; [|discriminate].
  destruct (trim_is_empty s) eqn:T; [discriminate|].
  cbn [Js.ret].
  destruct (Bridge.saveMemory lib (save_args body) b) as [[memoryId|e] b1];
    [|discriminate].
  intros H. inversion H; subst. cbn. eauto.
Qed.

Section CoreSave.

Import Core.

Variable an : Analysis.

(** A successful save of the bridge over the core is a successful
    [put] with neither importance nor ttl. *)
Lemma bridge_save_ok (a : SaveArgs) (c : Cache) (b' : RustBridge Cache)
  (memoryId : string) :
  Bridge.saveMemory (lib an) a (ready c) = (Ok memoryId, b') ->
  exists c', b' = ready c' /\ put an c (put_input a) = (inr memoryId, c').
Proof.
  unfold Bridge.saveMemory, rethrow, try_catch, Js.bind.
  cbn [ensureInitialized ready isInitialized cachePtr negb orb call lib
         mindcache_save].
  fold (put_input a).
  destruct (put an c (put_input a)) as [[k|x] c1]; cbn [null_on_error];
    [discriminate|].
  destruct x as [|ch x]; [discriminate|].
  cbn [Js.ret]. intros H. inversion H; subst. exists c1. auto.
Qed.

Lemma Qfloor_hours (h : Z) : Qfloor (inject_Z h * ms_per_hour) = h * 3600000.
Proof. unfold Qfloor, ms_per_hour. simpl. apply Z.div_1_r. Qed.

(** What a successful [put] without importance and ttl stores. *)
Lemma put_ok (c c' : Cache) (a : SaveArgs) (memoryId : string) :
  put an c (put_input a) = (inr memoryId, c') ->
  exists user session text,
    sa_userId a = Some user /\ sa_sessionId a = Some session
    /\ sa_content a = Some text
    /\ memoryId = fresh_id (next_id c)
    /\ next_id c' = S (next_id c)
    /\ config c' = config c /\ clock c' = clock c
    /\ memories c' =
       (evict_for an c user ++
        [mkMemory memoryId user session text (sa_metadata a) (1 # 2)
           (clock c)
           (clock c + default_memory_ttl_hours (config c) * 3600000)
           (clock c) 0])%list.
Proof.
  unfold put, put_input. cbn [p_user_id p_session_id p_content p_metadata
                                p_importance p_ttl_hours].
  destruct (sa_userId a) as [[|cu u]|]; cbn [present]; try discriminate;
    destruct (sa_sessionId a) as [[|cs s]|]; cbn [present];
    try discriminate;
    destruct (sa_content a) as [[|ct t]|]; cbn [present]; try discriminate.
  match goal with
  | |- context [if ?x then _ else _] => destruct x; [discriminate|]
  end.
  rewrite Qfloor_hours. cbn [id].
  intros H. inversion H; subst. cbn.
  do 3 eexists. repeat split.
Qed.

End CoreSave.

(** C2.  Whatever importance and ttlHours the caller supplies, a successful
    save stores the record with importance 0.5 and with an expiry computed
    from the configured default TTL: neither value is among the arguments
    the bridge passes to [mindcache_save]. *)
Theorem save_stores_default_importance_and_ttl (an : Core.Analysis)
  (c : Core.Cache) (body : SaveBody) (resp : Response SaveData)
  (b' : RustBridge Core.Cache) :
  MemoryController.saveMemory (Core.lib an) body (ready c) = (Ok resp, b') ->
  exists c' m,
    b' = ready c'
    /\ In m (Core.memories c')
    /\ id m = sd_memoryId (res_data resp)
    /\ sb_content body = Some (content m)
    /\ importance m = 1 # 2
    /\ expiresAt m
       = timestamp m + default_memory_ttl_hours (Core.config c) * 3600000.
Proof.
  intros H. apply controller_save_ok in H. destruct H as [H _].
  apply bridge_save_ok in H. destruct H as [c' [B P]].
  apply put_ok in P.
  destruct P as [user [session [text [U [S [T [I [N [CF [CL M]]]]]]]]]].
  eexists c', _. split; [exact B|].
  split; [rewrite M; apply in_or_app; right; left; reflexivity|].
  cbn. repeat split. exact T.
Qed.

(** C2, witness and failing input: a save with importance 0.9 and a life of
    one hour at instant 0 stores importance 0.5 and an expiry 720 hours
    later. *)
Lemma save_stores_default_importance_and_ttl_witness :
  exists c' m,
    In m (Core.memories c')
    /\ sb_importance save_important_one_hour = Some (9 # 10)
    /\ sb_ttlHours save_important_one_hour = Some (1 # 1)
    /\ importance m = 1 # 2
    /\ expiresAt m = timestamp m + 720 * 3600000.
Proof.
  destruct (save_stores_default_importance_and_ttl sample_analysis
              empty_cache save_important_one_hour
              (mkResponse 201 (mkSaveData "mem_0" (Some "u1") (Some "s1")))
              (ready (Core.mkCache default_config 0 1
                        [mkMemory "mem_0" "u1" "s1"
                           "I learned about memory decay" "{}" (1 # 2) 0
                           2592000000 0 0]))
              eq_refl)
    as [c' [m [B [I [D [T [P E]]]]]]].
  exists c', m. repeat split; assumption.
Defined.

(** ** Session deletion *)

Section KeepsRecords.

Import Core.

Variable an : Analysis.













End KeepsRecords.

(** C3, at the failing input.  Session s1 exists, belongs to u1 and holds
    one memory.  The confirmed delete answers 200 with memoriesDeleted = 1,
    yet every record is still in the core, and the next recall of u1
    returns the memory of the deleted session. *)
Theorem deleteSession_deletes_nothing (an : Core.Analysis) :
  exists b',
    SessionController.deleteSession (Core.lib an) "u1" "s1" (Some "true")
      (ready one_session)
    = (Ok (mkResponse 200 (SessionController.mkDeleteData "s1" "u1" 1)), b')
    /\ records b' = records (ready one_session)
    /\ exists resp b'',
         MemoryController.recallMemories (Core.lib an) recall_all b'
         = (Ok resp, b'')
         /\ map id (rd_memories (res_data resp)) = ["mem_0"]
         /\ map sessionId (rd_memories (res_data resp)) = ["s1"].
Proof.
  eexists. split; [vm_compute; reflexivity|].
  split; [vm_compute; reflexivity|].
  eexists. eexists. split; [vm_compute; reflexivity|].
  split; reflexivity.
Qed.

Section DeleteRejections.

Context {Cache : Type} (lib : RustLib Cache).

Lemma deleteSession_unconfirmed (userId sessionId : string)
  (confirm : option string) (b : RustBridge Cache) :
  confirm <> Some "true" ->
  SessionController.deleteSession lib userId sessionId confirm b
  = (Throw (createError
              "Session deletion requires confirmation. Add ?confirm=true to the request"
              "CONFIRMATION_REQUIRED" 400), b).
Proof.
  intros N. unfold SessionController.deleteSession, try_catch, Js.bind.
  destruct confirm as [cf|]; [|reflexivity].
  destruct (String.eqb_spec cf "true") as [E|D]; [subst; congruence|].
  repeat (destruct cf as [|[[] [] [] [] [] [] [] []] cf];
          try reflexivity).
  congruence.
Qed.



End DeleteRejections.




(** ** Repeated saves *)


Section CoreSaveAgain.

Import Core.

Variable an : Analysis.



End CoreSaveAgain.





(** ** Summaries *)


(** ** Listing over the core *)

(** When the user holds no more memories than the limit, the core's recall
    by user id returns the user's stored memories, in rank order. *)
Lemma core_recall_by_user (an : Core.Analysis) (c : Core.Cache)
  (a : ascii) (u : string) (limit : Z) :
  (List.length
     (filter (fun m => String.eqb (userId m) (String a u)) (Core.memories c))
   <= Z.to_nat limit)%nat ->
  exists found c',
    Core.recall an c (Some (String a u)) None None limit = (inr found, c')
    /\ Permutation found
         (filter (fun m => String.eqb (userId m) (String a u))
            (Core.memories c)).
Proof.
  intros H. unfold Core.recall. cbn [Core.present].
  eexists. eexists. split; [reflexivity|].
  rewrite (filter_ext _ (fun m => String.eqb (userId m) (String a u))).
  - apply firstn_rank_perm. exact H.
  - intros m. cbn. rewrite andb_true_r. reflexivity.
Qed.

(** Over the core, for a user within the limit of 10000 memories, the
    sessions listed are those of a rearrangement of the user's stored
    memories. *)
Lemma core_getUserSessions_listing (an : Core.Analysis) (c : Core.Cache)
  (a : ascii) (u : string) :
  (List.length
     (filter (fun m => String.eqb (userId m) (String a u)) (Core.memories c))
   <= Z.to_nat 10000)%nat ->
  exists memories b',
    Permutation memories
      (filter (fun m => String.eqb (userId m) (String a u)) (Core.memories c))
    /\ Bridge.getUserSessions (Core.lib an) (String a u) (ready c)
       = (Ok (group_sessions memories), b')
    /\ session_listing memories (group_sessions memories).
Proof.
  intros H.
  destruct (core_recall_by_user an c a u 10000 H) as [found [c' [E P]]].
  exists found, (mkBridge (Some c') true).
  split; [exact P|]. split; [|apply group_sessions_listing].
  unfold Bridge.getUserSessions, Bridge.recallMemories, rethrow, try_catch,
    Js.bind.
  cbn [ensureInitialized ready isInitialized cachePtr negb orb call
         plain_filter f_userId f_query f_sessionId f_limit Core.lib
         mindcache_recall].
  rewrite E. reflexivity.
Qed.

(* ===================================================================== *)
(** * Further properties of the bridge, the handlers and the SDK         *)
(* ===================================================================== *)

Import BridgeSessions SessionHandlers Middleware JsBuiltins.

(** ** A bridge without a core *)

Section Uninitialized.

Context {Cache : Type} (lib : RustLib Cache).

Lemma ensureInitialized_throws (b : RustBridge Cache) :
  uninitialized b -> ensureInitialized b = (Throw not_initialized, b).
Proof.
  intros [H|H]; unfold ensureInitialized; rewrite H.
  - reflexivity.
  - rewrite orb_true_r. reflexivity.
Qed.

Lemma guarded_throws {A : Type} (m : M (RustBridge Cache) A)
  (b : RustBridge Cache) :
  uninitialized b ->
  Js.bind ensureInitialized (fun _ => m) b = (Throw not_initialized, b).
Proof.
  intros H. unfold Js.bind. rewrite (ensureInitialized_throws b H).
  reflexivity.
Qed.

End Uninitialized.

(** X1.  On a bridge that is not initialised (as the constructor leaves it,
    or with a null cache pointer) every method of the bridge throws
    "Rust bridge not initialized. Call initialize() first." unwrapped,
    without calling the core and without changing the bridge. *)
Theorem uninitialized_bridge_throws {Cache : Type} (lib : RustLib Cache)
  (b : RustBridge Cache) :
  uninitialized b ->
  (forall a, Bridge.saveMemory lib a b = (Throw not_initialized, b))
  /\ (forall f, Bridge.recallMemories lib f b = (Throw not_initialized, b))
  /\ (forall s, Bridge.summarizeSession lib s b = (Throw not_initialized, b))
  /\ (forall u, Bridge.getUserSessions lib u b = (Throw not_initialized, b))
  /\ (forall s, Bridge.getSession lib s b = (Throw not_initialized, b))
  /\ (forall s, Bridge.deleteSession lib s b = (Throw not_initialized, b))
  /\ (forall now r u n m,
        createSession now r u n m b = (Throw not_initialized, b))
  /\ (forall u s,
        BridgeSessions.getSessionMemories lib u s b
        = (Throw not_initialized, b))
  /\ (forall u k,
        BridgeSessions.searchSessions lib u k b = (Throw not_initialized, b))
  /\ (forall s up,
        BridgeSessions.updateSession lib s up b = (Throw not_initialized, b)).
Proof.
  intros H.
  assert (G : forall s, Bridge.getSession lib s b = (Throw not_initialized, b)).
  { intros s. apply guarded_throws. exact H. }
  repeat split; intros; try (apply guarded_throws; exact H); try apply G.
  - unfold Bridge.deleteSession, Js.bind. rewrite G. reflexivity.
  - unfold BridgeSessions.updateSession, Js.bind. rewrite G. reflexivity.
Qed.

(** X1, witness: the bridge as constructed, before [initialize]. *)
Lemma uninitialized_bridge_throws_witness :
  Bridge.recallMemories (Core.lib sample_analysis)
    (plain_filter (Some "u1") None 50) constructed
  = (Throw not_initialized, constructed).
Proof.
  apply (proj1 (proj2 (uninitialized_bridge_throws
                         (Core.lib sample_analysis) constructed
                         (or_introl eq_refl)))).
Defined.

(** X2.  On a bridge that is not initialised the handlers answer with
    their own 500 error code and the bridge's message: recall, summarize,
    get session, session memories, search, update and (confirmed) delete
    never answer 404 or an empty result in that state. *)
Theorem handlers_on_uninitialized_bridge {Cache : Type} (lib : RustLib Cache)
  (b : RustBridge Cache) :
  uninitialized b ->
  (forall body,
     MemoryController.recallMemories lib body b
     = (Throw (createError (message not_initialized)
                 "MEMORY_RECALL_ERROR" 500), b))
  /\ (forall s,
        MemoryController.summarizeSession lib s b
        = (Throw (createError (message not_initialized)
                    "SUMMARY_ERROR" 500), b))
  /\ (forall u s,
        SessionHandlers.getSession lib u s b
        = (Throw (createError (message not_initialized)
                    "SESSION_GET_ERROR" 500), b))
  /\ (forall u s l o,
        SessionHandlers.getSessionMemories lib u s l o b
        = (Throw (createError (message not_initialized)
                    "SESSION_MEMORIES_ERROR" 500), b))
  /\ (forall u k,
        SessionHandlers.searchSessions lib u k b
        = (Throw (createError (message not_initialized)
                    "SESSION_SEARCH_ERROR" 500), b))
  /\ (forall u s up,
        SessionHandlers.updateSession lib u s up b
        = (Throw (createError (message not_initialized)
                    "SESSION_UPDATE_ERROR" 500), b))
  /\ (forall u s,
        SessionController.deleteSession lib u s (Some "true") b
        = (Throw (createError (message not_initialized)
                    "SESSION_DELETE_ERROR" 500), b)).
Proof.
  intros H.
  assert (R : forall f,
             Bridge.recallMemories lib f b = (Throw not_initialized, b))
    by (intros; apply guarded_throws; exact H).
  assert (S : forall s,
             Bridge.summarizeSession lib s b = (Throw not_initialized, b))
    by (intros; apply guarded_throws; exact H).
  assert (G : forall s,
             Bridge.getSession lib s b = (Throw not_initialized, b))
    by (intros; apply guarded_throws; exact H).
  assert (GM : forall u s,
             BridgeSessions.getSessionMemories lib u s b
             = (Throw not_initialized, b))
    by (intros; apply guarded_throws; exact H).
  assert (SS : forall u k,
             BridgeSessions.searchSessions lib u k b
             = (Throw not_initialized, b))
    by (intros; apply guarded_throws; exact H).
  repeat split; intros.
  - unfold MemoryController.recallMemories, try_catch, Js.bind.
    rewrite R. reflexivity.
  - unfold MemoryController.summarizeSession, try_catch, Js.bind.
    rewrite S. reflexivity.
  - unfold SessionHandlers.getSession, owned_session, try_catch, Js.bind.
    rewrite G. reflexivity.
  - unfold SessionHandlers.getSessionMemories, try_catch, Js.bind.
    rewrite GM. reflexivity.
  - unfold SessionHandlers.searchSessions, try_catch, Js.bind.
    rewrite SS. reflexivity.
  - unfold SessionHandlers.updateSession, owned_session, try_catch, Js.bind.
    rewrite G. reflexivity.
  - unfold SessionController.deleteSession, try_catch, Js.bind.
    cbn [Js.ret]. rewrite G. reflexivity.
Qed.

(** X2, witness: the delete handler on the bridge as constructed. *)
Lemma handlers_on_uninitialized_bridge_witness :
  SessionController.deleteSession (Core.lib sample_analysis) "u1" "s1"
    (Some "true") constructed
  = (Throw (createError
              "Rust bridge not initialized. Call initialize() first."
              "SESSION_DELETE_ERROR" 500), constructed).
Proof.
  apply (proj2 (proj2 (proj2 (proj2 (proj2 (proj2
           (handlers_on_uninitialized_bridge (Core.lib sample_analysis)
              constructed (or_introl eq_refl)))))))).
Defined.

(** ** The save and recall handlers *)

(** X3.  Every error of the save handler leaves it as a 500
    MEMORY_SAVE_ERROR: the 400 MISSING_SESSION_ID it creates for an absent
    or blank session id is caught by its own catch block and rethrown as
    500 with the message "Session ID is required", before the bridge is
    called; a success is a 201. *)
Theorem saveMemory_errors_are_500 {Cache : Type} (lib : RustLib Cache)
  (body : SaveBody) (b : RustBridge Cache) :
  match fst (MemoryController.saveMemory lib body b) with
  | Ok resp => res_status resp = 201
  | Throw e => code e = Some "MEMORY_SAVE_ERROR" /\ status e = Some 500
  end
  /\ (blank_session (sb_sessionId body) ->
      MemoryController.saveMemory lib body b
      = (Throw (createError "Session ID is required" "MEMORY_SAVE_ERROR" 500),
         b)).
Proof.
  unfold MemoryController.saveMemory, try_catch, Js.bind, blank_session.
  destruct (sb_sessionId body) as [s|].
  - destruct (trim_is_empty s) eqn:T.
    + split; [split; reflexivity|]. intros _. reflexivity.
    + cbn [Js.ret].
      destruct (Bridge.saveMemory lib (save_args body) b) as [[memoryId|e] b1].
      * split; [reflexivity | discriminate].
      * split; [split; reflexivity | discriminate].
  - split; [split; reflexivity|]. intros _. reflexivity.
Qed.

(** X3, witness: a session id of one space passes the schema and is
    answered 500 by the handler. *)
Lemma saveMemory_errors_are_500_witness :
  validateMemorySave
    (mkSaveBody (Some "u1") (Some " ") (Some "note") None None None)
  = inr (mkSaveBody (Some "u1") (Some " ") (Some "note") None None None)
  /\ MemoryController.saveMemory (Core.lib sample_analysis)
       (mkSaveBody (Some "u1") (Some " ") (Some "note") None None None)
       (ready empty_cache)
     = (Throw (createError "Session ID is required" "MEMORY_SAVE_ERROR" 500),
        ready empty_cache).
Proof.
  split; [reflexivity|].
  apply (proj2 (saveMemory_errors_are_500 (Core.lib sample_analysis)
                  (mkSaveBody (Some "u1") (Some " ") (Some "note") None None
                     None) (ready empty_cache))).
  reflexivity.
Defined.


(** ** Searching sessions *)

Section SearchSessions.

Context {Cache : Type} (lib : RustLib Cache).

Lemma Subseq_refl_nil {A : Type} (l : list A) : Subseq [] l.
Proof. induction l; constructor; assumption. Qed.

Lemma Subseq_In {A : Type} (a b : list A) (x : A) :
  Subseq a b -> In x a -> In x b.
Proof.
  induction 1; simpl; intros H'; auto.
  destruct H' as [E|I]; auto.
Qed.

Lemma Subseq_map {A B : Type} (f : A -> B) (a b : list A) :
  Subseq a b -> Subseq (map f a) (map f b).
Proof. induction 1; simpl; constructor; assumption. Qed.

Lemma Subseq_NoDup {A : Type} (a b : list A) :
  Subseq a b -> NoDup b -> NoDup a.
Proof.
  induction 1 as [|x a b S IH|x a b S IH]; intros ND.
  - constructor.
  - inversion ND; subst. auto.
  - inversion ND as [|? ? NI ND']; subst. constructor; [|auto].
    intros I. apply NI. eapply Subseq_In; eassumption.
Qed.

(** The outer loop appends to [matchingSessions] a selection of the
    sessions it walks, in their order; with no keyword it selects
    nothing. *)
Lemma session_loop_selects (userId : string) (keywords : list string)
  (sessions : list Session) :
  forall (acc result : list Session) (b b' : RustBridge Cache),
    session_loop lib userId keywords sessions acc b = (Ok result, b') ->
    exists picked,
      result = (acc ++ picked)%list /\ Subseq picked sessions
      /\ (keywords = [] -> picked = [] /\ b' = b).
Proof.
  induction sessions as [|session rest IH]; intros acc result b b' H.
  - cbn in H. inversion H; subst. exists []. rewrite app_nil_r.
    repeat split; constructor.
  - cbn [session_loop] in H. unfold Js.bind at 1 in H.
    destruct (keyword_loop lib userId session keywords b)
      as [[found|e] b1] eqn:K; [|discriminate].
    destruct (IH _ _ _ _ H) as [picked [E [S N]]].
    destruct found.
    + exists (session :: picked). rewrite E, <- app_assoc.
      split; [reflexivity|]. split; [constructor; exact S|].
      intros Z. subst keywords. cbn in K. discriminate.
    + exists picked. split; [exact E|]. split; [constructor; exact S|].
      intros Z. destruct (N Z) as [P B]. split; [exact P|].
      subst keywords. cbn in K. inversion K; subst. reflexivity.
Qed.

End SearchSessions.

(** X5.  A session search answers with a selection of the user's session
    listing, in the listing's order and without repetition; with an empty
    keyword list it answers with no session and makes no further recall. *)
Theorem searchSessions_selects_from_listing {Cache : Type}
  (lib : RustLib Cache) (userId : string) (keywords : list string)
  (b b' : RustBridge Cache) (result : list Session) :
  BridgeSessions.searchSessions lib userId keywords b = (Ok result, b') ->
  exists sessions b1,
    Bridge.getUserSessions lib userId b = (Ok sessions, b1)
    /\ Subseq result sessions
    /\ NoDup (map s_id result)
    /\ (keywords = [] -> result = [] /\ b' = b1).
Proof.
  unfold BridgeSessions.searchSessions, rethrow, try_catch.
  unfold Js.bind at 1.
  destruct (ensureInitialized b) as [[[]|e] b0] eqn:E; [|discriminate].
  assert (B0 : b0 = b).
  { unfold ensureInitialized in E.
    destruct (negb (isInitialized b) || _)%bool; inversion E; reflexivity. }
  subst b0. unfold Js.bind.
  destruct (Bridge.getUserSessions lib userId b) as [[sessions|e] b1] eqn:G;
    [|discriminate].
  destruct (session_loop lib userId keywords sessions [] b1)
    as [[r|e] b2] eqn:L; [|discriminate].
  intros H. inversion H; subst r b2. clear H.
  destruct (session_loop_selects lib _ _ _ _ _ _ _ L) as [picked [R [S N]]].
  cbn [app] in R. subst picked.
  exists sessions, b1. split; [reflexivity|]. split; [exact S|].
  split; [|exact N].
  apply (Subseq_NoDup _ (map s_id sessions)); [apply Subseq_map; exact S|].
  (* the listing has one entry per session id *)
  unfold Bridge.getUserSessions, rethrow, try_catch, Js.bind in G.
  rewrite E in G.
  destruct (Bridge.recallMemories lib (plain_filter (Some userId) None 10000) b)
    as [[memories|e] b2]; [|discriminate].
  cbn [Js.ret] in G. inversion G; subst.
  apply (group_sessions_listing memories).
Qed.

(** X5, witness: u1 has two sessions; the search for "note" selects the
    one whose memory contains it. *)
Lemma searchSessions_selects_from_listing_witness :
  exists sessions,
    fst (Bridge.getUserSessions (Core.lib sample_analysis) "u1"
           (ready (Core.mkCache default_config 1000 2
                     [stored_memory "mem_0" "u1" "s1" "a note" (1 # 2) 1000;
                      stored_memory "mem_1" "u1" "s2" "other" (1 # 2) 1000])))
    = Ok sessions
    /\ Subseq [mkSession "s1" "u1" (Some 1000) (Some 1000) 1] sessions.
Proof.
  destruct (searchSessions_selects_from_listing (Core.lib sample_analysis)
              "u1" ["note"]
              (ready (Core.mkCache default_config 1000 2
                        [stored_memory "mem_0" "u1" "s1" "a note" (1 # 2) 1000;
                         stored_memory "mem_1" "u1" "s2" "other" (1 # 2) 1000]))
              _ _ eq_refl)
    as [sessions [b1 [G [S _]]]].
  exists sessions. rewrite G. split; [reflexivity | exact S].
Defined.

(** ** Paging through the memories of a session *)

Section Paging.

Lemma slice_length {A : Type} (l : list A) (start final : Z) :
  (List.length (slice l start final) <= List.length l)%nat.
Proof.
  unfold slice. rewrite length_firstn, length_skipn. lia.
Qed.

(** From a non-negative start, [slice] is "skip, then take". *)
Lemma slice_window {A : Type} (l : list A) (o n : Z) :
  0 <= o -> 0 <= n ->
  slice l o (o + n) = firstn (Z.to_nat n) (skipn (Z.to_nat o) l).
Proof.
  intros Ho Hn. unfold slice.
  destruct (Z.ltb_spec o 0); [lia|].
  destruct (Z.ltb_spec (o + n) 0); [lia|].
  destruct (Z.le_gt_cases o (Z.of_nat (List.length l))) as [L|G].
  - rewrite (Z.min_l o) by exact L.
    destruct (Z.le_gt_cases (o + n) (Z.of_nat (List.length l))) as [L2|G2].
    + rewrite Z.min_l by exact L2. f_equal. lia.
    + rewrite Z.min_r by lia.
      rewrite !firstn_all2; [reflexivity| |]; rewrite length_skipn; lia.
  - rewrite !Z.min_r by lia.
    rewrite !skipn_all2 by lia. rewrite !firstn_nil. reflexivity.
Qed.

End Paging.

(** X6.  The session-memories handler answers with a window of the
    recalled memories: [total] is their number, [returned] the size of the
    window, never more than [total]; with a positive limit and a
    non-negative (or absent) offset the window is the [limit] memories
    after the first [offset]; without a positive limit the offset is
    ignored and all memories are returned. *)
Theorem getSessionMemories_pages {Cache : Type} (lib : RustLib Cache)
  (userId sessionId : string) (limit offset : option string)
  (b b' : RustBridge Cache) (memories : list Memory) :
  BridgeSessions.getSessionMemories lib userId sessionId b
  = (Ok memories, b') ->
  exists page,
    SessionHandlers.getSessionMemories lib userId sessionId limit offset b
    = (Ok (mkResponse 200 page), b')
    /\ pd_total page = List.length memories
    /\ pd_returned page = List.length (pd_memories page)
    /\ (pd_returned page <= pd_total page)%nat
    /\ (forall l o,
          parseInt limit = Some l -> 0 < l ->
          match parseInt offset with Some o' => o' | None => 0 end = o ->
          0 <= o ->
          pd_memories page
          = firstn (Z.to_nat l) (skipn (Z.to_nat o) memories))
    /\ ((forall l, parseInt limit = Some l -> l <= 0) ->
        pd_memories page = memories).
Proof.
  intros H.
  unfold SessionHandlers.getSessionMemories, try_catch, Js.bind.
  rewrite H. cbn [Js.ret]. eexists. split; [reflexivity|].
  unfold paginate. cbn [pd_total pd_returned pd_memories].
  split; [reflexivity|]. split; [reflexivity|].
  split; [|split].
  - destruct (parseInt limit) as [l|]; [|lia].
    destruct (0 <? l); [apply slice_length | lia].
  - intros l o L P O N. rewrite L, O.
    destruct (Z.ltb_spec 0 l); [|lia].
    apply slice_window; lia.
  - intros N. destruct (parseInt limit) as [l|]; [|reflexivity].
    specialize (N l eq_refl).
    destruct (Z.ltb_spec 0 l); [lia | reflexivity].
Qed.

(** X6, witness: [?limit=2&offset=1] on a session of three memories. *)
Lemma getSessionMemories_pages_witness :
  exists page b',
    SessionHandlers.getSessionMemories (Core.lib sample_analysis) "u1" "s1"
      (Some "2") (Some "1") (ready three_importances)
    = (Ok (mkResponse 200 page), b')
    /\ map id (pd_memories page) = ["mem_1"; "mem_0"]
    /\ pd_total page = 3%nat.
Proof.
  destruct (getSessionMemories_pages (Core.lib sample_analysis) "u1" "s1"
              (Some "2") (Some "1") (ready three_importances) _ _ eq_refl)
    as [page [E [T [_ [_ [W _]]]]]].
  exists page. eexists. split; [exact E|].
  rewrite (W 2 1 eq_refl eq_refl eq_refl ltac:(lia)).
  split; [reflexivity | exact T].
Defined.

(** ** Errors of the session handlers *)

Section SessionErrors.

Context {Cache : Type} (lib : RustLib Cache).

Lemma rethrow_plain {A : Type} (prefix : string)
  (m : M (RustBridge Cache) A) (b b' : RustBridge Cache) (e : Error) :
  rethrow prefix m b = (Throw e, b') -> plain e.
Proof.
  unfold rethrow, try_catch. destruct (m b) as [[a|e1] b1]; intros H;
    inversion H; split; reflexivity.
Qed.

Lemma guarded_plain {A : Type} (prefix : string)
  (m : M (RustBridge Cache) A) (b b' : RustBridge Cache) (e : Error) :
  Js.bind ensureInitialized (fun _ => rethrow prefix m) b = (Throw e, b') ->
  plain e.
Proof.
  unfold Js.bind, ensureInitialized.
  destruct (negb (isInitialized b) || _)%bool.
  - intros H. inversion H; split; reflexivity.
  - apply rethrow_plain.
Qed.

Lemma getSession_throws_plain (sessionId : string)
  (b b' : RustBridge Cache) (e : Error) :
  Bridge.getSession lib sessionId b = (Throw e, b') -> plain e.
Proof. apply guarded_plain. Qed.

(** The errors of the two checks every session handler starts with. *)
Lemma owned_session_throws (userId sessionId : string)
  (b b' : RustBridge Cache) (e : Error) :
  owned_session lib userId sessionId b = (Throw e, b') ->
  plain e
  \/ e = createError "Session not found" "SESSION_NOT_FOUND" 404
  \/ e = createError "Session does not belong to this user"
           "SESSION_ACCESS_DENIED" 403.
Proof.
  unfold owned_session, Js.bind.
  destruct (Bridge.getSession lib sessionId b) as [[[session|]|e1] b1] eqn:G.
  - destruct (negb _); intros H; inversion H; auto.
  - intros H; inversion H; auto.
  - intros H; inversion H; subst. left.
    eapply getSession_throws_plain; eassumption.
Qed.

Lemma keep_session_errors_handled {A : Type} (fallback kind : string)
  (e0 e : Error) (b b' : RustBridge Cache) :
  plain e0
  \/ e0 = createError "Session not found" "SESSION_NOT_FOUND" 404
  \/ e0 = createError "Session does not belong to this user"
            "SESSION_ACCESS_DENIED" 403 ->
  @keep_session_errors Cache A fallback kind e0 b = (Throw e, b') ->
  (code e = Some "SESSION_NOT_FOUND" /\ status e = Some 404)
  \/ (code e = Some "SESSION_ACCESS_DENIED" /\ status e = Some 403)
  \/ (code e = Some kind /\ status e = Some 500).
Proof.
  unfold keep_session_errors, SessionController.code_is.
  intros [[C S]|[E|E]].
  - rewrite C. cbn. intros H. inversion H. auto.
  - subst e0. cbn. intros H. inversion H. auto.
  - subst e0. cbn. intros H. inversion H. auto.
Qed.

Lemma updateSession_throws_plain (sessionId : string) (updates : Updates)
  (b b' : RustBridge Cache) (e : Error) :
  BridgeSessions.updateSession lib sessionId updates b = (Throw e, b') ->
  plain e.
Proof.
  unfold BridgeSessions.updateSession, Js.bind.
  destruct (Bridge.getSession lib sessionId b) as [[[session|]|e1] b1] eqn:G;
    intros H; inversion H; subst.
  - split; reflexivity.
  - eapply getSession_throws_plain; eassumption.
Qed.

Lemma bridge_deleteSession_throws_plain (sessionId : string)
  (b b' : RustBridge Cache) (e : Error) :
  Bridge.deleteSession lib sessionId b = (Throw e, b') -> plain e.
Proof.
  unfold Bridge.deleteSession, Js.bind.
  destruct (Bridge.getSession lib sessionId b) as [[[session|]|e1] b1] eqn:G;
    intros H; inversion H; subst.
  - split; reflexivity.
  - eapply getSession_throws_plain; eassumption.
Qed.

(** What the error handler makes of the errors the session handlers
    choose. *)
Lemma handled_session_error (e : Error) (kind : string) (st : Z) :
  code e = Some kind -> status e = Some st ->
  In (kind, st)
    [("SESSION_NOT_FOUND", 404); ("SESSION_ACCESS_DENIED", 403);
     ("CONFIRMATION_REQUIRED", 400); ("SESSION_GET_ERROR", 500);
     ("SESSION_UPDATE_ERROR", 500); ("SESSION_DELETE_ERROR", 500)] ->
  handled e = (st, kind).
Proof.
  intros C S I. destruct e as [msg c s]. cbn in C, S. subst c s.
  cbn in I.
  repeat (destruct I as [I|I]; [inversion I; subst; reflexivity|]).
  contradiction.
Qed.

End SessionErrors.

(** X7.  Whatever the get, update and delete session handlers throw, the
    error handler answers it with the status and the code the handler
    chose: 404 SESSION_NOT_FOUND, 403 SESSION_ACCESS_DENIED, 400
    CONFIRMATION_REQUIRED (delete only) or the handler's own 500 code;
    errors of the bridge never surface with another status. *)
Theorem session_errors_keep_status_and_code {Cache : Type}
  (lib : RustLib Cache) (userId sessionId : string) (b : RustBridge Cache) :
  (forall e b',
     SessionHandlers.getSession lib userId sessionId b = (Throw e, b') ->
     In (handled e)
       [(404, "SESSION_NOT_FOUND"); (403, "SESSION_ACCESS_DENIED");
        (500, "SESSION_GET_ERROR")])
  /\ (forall updates e b',
        SessionHandlers.updateSession lib userId sessionId updates b
        = (Throw e, b') ->
        In (handled e)
          [(404, "SESSION_NOT_FOUND"); (403, "SESSION_ACCESS_DENIED");
           (500, "SESSION_UPDATE_ERROR")])
  /\ (forall confirm e b',
        SessionController.deleteSession lib userId sessionId confirm b
        = (Throw e, b') ->
        In (handled e)
          [(404, "SESSION_NOT_FOUND"); (403, "SESSION_ACCESS_DENIED");
           (400, "CONFIRMATION_REQUIRED"); (500, "SESSION_DELETE_ERROR")]).
Proof.
  assert (K : forall kind e,
             (code e = Some "SESSION_NOT_FOUND" /\ status e = Some 404)
             \/ (code e = Some "SESSION_ACCESS_DENIED" /\ status e = Some 403)
             \/ (code e = Some kind /\ status e = Some 500) ->
             In (kind, 500)
               [("SESSION_NOT_FOUND", 404); ("SESSION_ACCESS_DENIED", 403);
                ("CONFIRMATION_REQUIRED", 400); ("SESSION_GET_ERROR", 500);
                ("SESSION_UPDATE_ERROR", 500); ("SESSION_DELETE_ERROR", 500)] ->
             handled e = (404, "SESSION_NOT_FOUND")
             \/ handled e = (403, "SESSION_ACCESS_DENIED")
             \/ handled e = (500, kind)).
  { intros kind e [[C S]|[[C S]|[C S]]] I.
    - left. apply handled_session_error; cbn; auto.
    - right. left. apply handled_session_error; cbn; auto.
    - right. right. apply handled_session_error; auto. }
  split; [|split].
  - intros e b'. unfold SessionHandlers.getSession, try_catch, Js.bind.
    destruct (owned_session lib userId sessionId b) as [[session|e0] b1] eqn:O;
      [discriminate|].
    intros H. apply owned_session_throws in O.
    apply (keep_session_errors_handled _ _ _ _ _ _ O) in H.
    destruct (K "SESSION_GET_ERROR" e H) as [R|[R|R]];
      try (cbn; tauto); rewrite R; cbn; tauto.
  - intros updates e b'.
    unfold SessionHandlers.updateSession, try_catch, Js.bind.
    destruct (owned_session lib userId sessionId b) as [[session|e0] b1] eqn:O.
    + destruct (BridgeSessions.updateSession lib sessionId updates b1)
        as [[u|e0] b2] eqn:U; [discriminate|].
      intros H. apply updateSession_throws_plain in U.
      apply (keep_session_errors_handled _ _ _ _ _ _ (or_introl U)) in H.
      destruct (K "SESSION_UPDATE_ERROR" e H) as [R|[R|R]];
        try (cbn; tauto); rewrite R; cbn; tauto.
    + intros H. apply owned_session_throws in O.
      apply (keep_session_errors_handled _ _ _ _ _ _ O) in H.
      destruct (K "SESSION_UPDATE_ERROR" e H) as [R|[R|R]];
        try (cbn; tauto); rewrite R; cbn; tauto.
  - intros confirm e b'.
    assert (D : confirm = Some "true" \/ confirm <> Some "true").
    { destruct confirm as [cf|]; [|right; discriminate].
      destruct (string_dec cf "true") as [E|N]; [left; subst; reflexivity|].
      right. intros H. inversion H. contradiction. }
    destruct D as [T|N].
    + subst confirm.
      unfold SessionController.deleteSession, try_catch, Js.bind.
      cbn [Js.ret].
      destruct (Bridge.getSession lib sessionId b)
        as [[[session|]|e1] b1] eqn:G.
      * destruct (negb _).
        -- intros H. inversion H; subst. cbn. tauto.
        -- destruct (Bridge.deleteSession lib sessionId b1)
             as [[d|e2] b2] eqn:D; [discriminate|].
           apply bridge_deleteSession_throws_plain in D.
           destruct D as [C S]. unfold SessionController.code_is.
           rewrite C. cbn. intros H. inversion H; subst.
           right. right. right. left. reflexivity.
      * intros H. inversion H; subst. cbn. tauto.
      * apply getSession_throws_plain in G. destruct G as [C S].
        unfold SessionController.code_is. rewrite C. cbn.
        intros H. inversion H; subst.
        right. right. right. left. reflexivity.
    + rewrite (deleteSession_unconfirmed lib userId sessionId confirm b N).
      intros H. inversion H; subst. cbn. tauto.
Qed.

(** X7, witness: an unconfirmed delete is answered 400
    CONFIRMATION_REQUIRED. *)
Lemma session_errors_keep_status_and_code_witness :
  exists e,
    fst (SessionController.deleteSession (Core.lib sample_analysis)
           "u1" "s1" None (ready one_session)) = Throw e
    /\ In (handled e)
         [(404, "SESSION_NOT_FOUND"); (403, "SESSION_ACCESS_DENIED");
          (400, "CONFIRMATION_REQUIRED"); (500, "SESSION_DELETE_ERROR")].
Proof.
  eexists. split; [reflexivity|].
  apply (proj2 (proj2 (session_errors_keep_status_and_code
                         (Core.lib sample_analysis) "u1" "s1"
                         (ready one_session))) None _ (ready one_session)).
  reflexivity.
Defined.

(** ** Reading and updating a session *)

(** X8.  The get-session handler answers 200 with the session exactly when
    the lookup finds it and its user id is the requesting one; it answers
    403 for another user's session, 404 when the lookup finds nothing, and
    500 SESSION_GET_ERROR with the bridge's message when the lookup
    fails.  The bridge is left as the lookup left it. *)
Theorem getSession_answers_owner_only {Cache : Type} (lib : RustLib Cache)
  (userId sessionId : string) (b : RustBridge Cache) :
  SessionHandlers.getSession lib userId sessionId b
  = (match fst (Bridge.getSession lib sessionId b) with
     | Ok (Some session) =>
         if String.eqb (s_userId session) userId
         then Ok (mkResponse 200 session)
         else Throw (createError "Session does not belong to this user"
                       "SESSION_ACCESS_DENIED" 403)
     | Ok None =>
         Throw (createError "Session not found" "SESSION_NOT_FOUND" 404)
     | Throw e =>
         Throw (createError (or_string (message e) "Failed to get session")
                  "SESSION_GET_ERROR" 500)
     end,
     snd (Bridge.getSession lib sessionId b)).
Proof.
  unfold SessionHandlers.getSession, owned_session, try_catch, Js.bind.
  destruct (Bridge.getSession lib sessionId b) as [[[session|]|e] b1] eqn:G;
    cbn [fst snd].
  - destruct (String.eqb (s_userId session) userId); reflexivity.
  - reflexivity.
  - apply getSession_throws_plain in G. destruct G as [C S].
    unfold keep_session_errors, SessionController.code_is. rewrite C.
    reflexivity.
Qed.



(** ** More on the SDK's request loop *)

Section RequestBounds.

Context {A : Type} (sdk : MindCacheSDK) (fetch : Z -> Fetched A).

Lemma backoff_bounds (attempt : Z) :
  1 <= attempt -> 1000 <= backoff attempt <= 10000.
Proof.
  intros H. unfold backoff.
  assert (P : 1 <= 2 ^ (attempt - 1)).
  { pose proof (Z.pow_pos_nonneg 2 (attempt - 1)). lia. }
  split; [apply Z.min_glb; lia | apply Z.le_min_r].
Qed.

Lemma attempts_app (a b : list Event) :
  attempts (a ++ b) = (attempts a ++ attempts b)%list.
Proof. apply flat_map_app. Qed.

Lemma sleeps_app (a b : list Event) :
  sleeps (a ++ b) = (sleeps a ++ sleeps b)%list.
Proof. apply flat_map_app. Qed.

(** What the loop adds to the log from attempt number [attempt] on, when
    the fuel covers the attempts that are left. *)
Lemma request_loop_log (fuel : nat) :
  forall (attempt : Z) lastError (log : list Event),
    1 <= attempt ->
    retries sdk - attempt < Z.of_nat fuel ->
    exists (extra : list Event) (k : nat),
      snd (request_loop sdk fetch fuel attempt lastError log)
      = (log ++ extra)%list
      /\ attempts extra = map (fun i => attempt + Z.of_nat i) (seq 0 k)
      /\ ((0 < k)%nat -> attempt + Z.of_nat k - 1 <= retries sdk)
      /\ (attempt <= retries sdk -> (0 < k)%nat)
      /\ Forall (fun ms => 1000 <= ms <= 10000) (sleeps extra)
      /\ (List.length (sleeps extra) <= Nat.pred k)%nat.
Proof.
  induction fuel as [|fuel IH]; intros attempt lastError log H U.
  - exists [], 0%nat. cbn. rewrite app_nil_r.
    repeat split; try constructor; lia.
  - cbn [request_loop].
    destruct (Z.leb_spec attempt (retries sdk)) as [L|L].
    2:{ exists [], 0%nat. cbn. rewrite app_nil_r.
        repeat split; try constructor; lia. }
    assert (STOP : exists (extra : list Event) (k : nat),
               (log ++ [Attempt attempt])%list = (log ++ extra)%list
               /\ attempts extra
                  = map (fun i => attempt + Z.of_nat i) (seq 0 k)
               /\ ((0 < k)%nat -> attempt + Z.of_nat k - 1 <= retries sdk)
               /\ (attempt <= retries sdk -> (0 < k)%nat)
               /\ Forall (fun ms => 1000 <= ms <= 10000) (sleeps extra)
               /\ (List.length (sleeps extra) <= Nat.pred k)%nat).
    { exists [Attempt attempt], 1%nat. cbn. rewrite Z.add_0_r.
      repeat split; try constructor; lia. }
    assert (GO : forall le : option SdkError,
               exists (extra : list Event) (k : nat),
                 snd (if attempt <? retries sdk
                      then request_loop sdk fetch fuel (attempt + 1) le
                             ((log ++ [Attempt attempt])
                              ++ [Sleep (backoff attempt)])%list
                      else request_loop sdk fetch fuel (attempt + 1) le
                             (log ++ [Attempt attempt])%list)
                 = (log ++ extra)%list
                 /\ attempts extra
                    = map (fun i => attempt + Z.of_nat i) (seq 0 k)
                 /\ ((0 < k)%nat ->
                     attempt + Z.of_nat k - 1 <= retries sdk)
                 /\ (attempt <= retries sdk -> (0 < k)%nat)
                 /\ Forall (fun ms => 1000 <= ms <= 10000) (sleeps extra)
                 /\ (List.length (sleeps extra) <= Nat.pred k)%nat).
    { intros le.
      destruct (Z.ltb_spec attempt (retries sdk)) as [LT|GE].
      - destruct (IH (attempt + 1) le
                    ((log ++ [Attempt attempt])
                     ++ [Sleep (backoff attempt)])%list
                    ltac:(lia) ltac:(lia))
          as [extra [k [E [AT [B [P [F N]]]]]]].
        exists (Attempt attempt :: Sleep (backoff attempt) :: extra), (S k).
        rewrite E, <- !app_assoc. split; [reflexivity|].
        split.
        { cbn [attempts flat_map app seq map]. fold (attempts extra).
          rewrite AT, Z.add_0_r, <- seq_shift, map_map. f_equal.
          apply map_ext. intros i. lia. }
        split; [destruct k; lia|].
        split; [lia|].
        split.
        { cbn [sleeps flat_map app]. constructor;
            [apply backoff_bounds; lia | exact F]. }
        cbn [sleeps flat_map app List.length]. fold (sleeps extra).
        specialize (P ltac:(lia)). destruct k as [|k]; [lia|].
        cbn [Nat.pred] in *. lia.
      - destruct (IH (attempt + 1) le (log ++ [Attempt attempt])%list
                    ltac:(lia) ltac:(lia))
          as [extra [k [E [AT [B [P [F N]]]]]]].
        destruct k as [|k]; [|lia].
        exists (Attempt attempt :: extra), 1%nat.
        rewrite E, <- !app_assoc. split; [reflexivity|].
        cbn [attempts flat_map app seq map]. fold (attempts extra).
        rewrite AT, Z.add_0_r.
        repeat split; try lia; assumption. }
    destruct (fetch attempt) as [d|st msg| |msg]; cbn [snd attempt_error];
      try exact STOP;
      match goal with
      | |- context [if is_client_error ?e then _ else _] =>
          destruct (is_client_error e); [exact STOP | apply GO]
      end.
Qed.

End RequestBounds.

(** X10.  Whatever the server does, a request makes its attempts in order
    1, 2, ..., at most [retries] of them if [retries] is positive and none
    otherwise; it sleeps at most once between two attempts, and every
    sleep is between 1000 and 10000 ms. *)
Theorem request_attempts_bounded {A : Type} (sdk : MindCacheSDK)
  (fetch : Z -> Fetched A) :
  exists k : nat,
    attempts (snd (request sdk fetch))
    = map (fun i => 1 + Z.of_nat i) (seq 0 k)
    /\ Z.of_nat k <= Z.max 0 (retries sdk)
    /\ Forall (fun ms => 1000 <= ms <= 10000) (sleeps (snd (request sdk fetch)))
    /\ (List.length (sleeps (snd (request sdk fetch))) <= Nat.pred k)%nat.
Proof.
  unfold request.
  destruct (request_loop_log sdk fetch (S (Z.to_nat (retries sdk))) 1 None []
              ltac:(lia) ltac:(lia)) as [extra [k [E [AT [B [_ [F N]]]]]]].
  rewrite E. cbn [app]. exists k.
  split; [exact AT|]. split; [destruct k; lia|]. split; assumption.
Qed.

(** X11.  After any number of failures that are not client errors, the
    first successful attempt ends the request with its data; no sleep
    follows it and no further attempt is made. *)
Theorem request_returns_first_success {A : Type} (sdk : MindCacheSDK)
  (fetch : Z -> Fetched A) (k : nat) (data : A) :
  (forall i, 1 <= i < 1 + Z.of_nat k -> retryable sdk (fetch i)) ->
  1 + Z.of_nat k <= retries sdk ->
  fetch (1 + Z.of_nat k) = Replied data ->
  request sdk fetch
  = (inl data, (retried k 1 ++ [Attempt (1 + Z.of_nat k)])%list).
Proof.
  intros R B F. apply (proj1 (request_stops sdk fetch k R B)). exact F.
Qed.

(** X11, witness: a 500, then a reply. *)
Lemma request_returns_first_success_witness :
  request default_sdk
    (fun n => if n =? 1 then Failed_status 500 "Io" else Replied "done")
  = (inl "done", [Attempt 1; Sleep 1000; Attempt 2]).
Proof.
  apply (request_returns_first_success default_sdk
           (fun n => if n =? 1 then Failed_status 500 "Io" else Replied "done")
           1 "done").
  - intros i H. replace i with 1 by lia. eexists. split; reflexivity.
  - vm_compute. discriminate.
  - reflexivity.
Defined.

(** X12.  The retries option cannot be 0: an absent or zero option gives
    the default of 3 attempts.  A negative option is kept, and then a
    request makes no attempt at all and throws [undefined]. *)
Theorem retries_option_edges {A : Type} (options : Options)
  (fetch : Z -> Fetched A) :
  retries (new_sdk options) <> 0
  /\ (opt_retries options = None \/ opt_retries options = Some 0 ->
      retries (new_sdk options) = 3)
  /\ (forall r, opt_retries options = Some r -> r < 0 ->
      request (new_sdk options) fetch = (inr None, [])).
Proof.
  unfold new_sdk, or_Z. cbn [retries].
  split; [|split].
  - destruct (opt_retries options) as [r|]; [|discriminate].
    destruct (Z.eqb_spec r 0); [discriminate | assumption].
  - intros [H|H]; rewrite H; reflexivity.
  - intros r H N. unfold request. rewrite H. cbn [retries].
    destruct (Z.eqb_spec r 0); [lia|].
    cbn [request_loop retries].
    destruct (Z.leb_spec 1 r); [lia | reflexivity].
Qed.

(** X12, witness: [retries: -1]. *)
Lemma retries_option_edges_witness :
  request (new_sdk (mkOptions None (Some (-1))))
    (fun _ => @Replied string "never asked")
  = (inr None, []).
Proof.
  apply (proj2 (proj2 (retries_option_edges (mkOptions None (Some (-1)))
                         (fun _ => @Replied string "never asked")))
           (-1) eq_refl).
  lia.
Defined.

(** ** More on the session listing *)

Section ListingCounts.

Lemma count_memory_count (memory : Memory) (s : Session) :
  s_memoryCount (count_memory memory s) = S (s_memoryCount s).
Proof.
  unfold count_memory. cbn.
  repeat match goal with
         | |- context [if ?c then _ else _] => destruct c; cbn
         end; reflexivity.
Qed.

Lemma total_count_app (a b : list Session) :
  total_count (a ++ b) = (total_count a + total_count b)%nat.
Proof.
  unfold total_count.
  induction a as [|s a IH]; cbn; [reflexivity | rewrite IH; lia].
Qed.

Lemma total_count_update (ss : list Session) (key : string)
  (f : Session -> Session) :
  (forall s, s_memoryCount (f s) = S (s_memoryCount s)) ->
  map_has ss key = true ->
  total_count (map_update ss key f) = S (total_count ss).
Proof.
  intros F. unfold total_count.
  induction ss as [|s ss IH]; cbn; [discriminate|].
  destruct (String.eqb (s_id s) key); intros H; cbn.
  - rewrite F. reflexivity.
  - rewrite IH by exact H. lia.
Qed.

Lemma map_has_app (a b : list Session) (key : string) :
  map_has (a ++ b) key = map_has a key || map_has b key.
Proof.
  induction a as [|s a IH]; cbn; [reflexivity|].
  destruct (String.eqb (s_id s) key); [reflexivity | exact IH].
Qed.

Lemma visit_memory_total (ss : list Session) (m : Memory) :
  total_count (visit_memory ss m) = S (total_count ss).
Proof.
  unfold visit_memory.
  destruct (map_has ss (sessionId m)) eqn:H; cbn [negb].
  - apply total_count_update; [apply count_memory_count | exact H].
  - rewrite total_count_update.
    + rewrite total_count_app. cbn. lia.
    + apply count_memory_count.
    + rewrite map_has_app. cbn. rewrite String.eqb_refl.
      apply orb_true_r.
Qed.

Lemma group_sessions_total (memories : list Memory) :
  total_count (group_sessions memories) = List.length memories.
Proof.
  unfold group_sessions.
  induction memories as [|m p IH] using rev_ind; [reflexivity|].
  rewrite fold_left_app, length_app. cbn [fold_left List.length].
  rewrite visit_memory_total, IH. lia.
Qed.

Lemma fold_min_le (l : list Z) (x : Z) : fold_left Z.min l x <= x.
Proof.
  revert x. induction l as [|y l IH]; intros x; cbn; [lia|].
  specialize (IH (Z.min x y)). lia.
Qed.

Lemma fold_max_ge (l : list Z) (x : Z) : x <= fold_left Z.max l x.
Proof.
  revert x. induction l as [|y l IH]; intros x; cbn; [lia|].
  specialize (IH (Z.max x y)). lia.
Qed.

(** Every listed session has a memory, and was created no later than it
    was last active. *)
Lemma listing_entries_sound (memories : list Memory) (s : Session) :
  In s (group_sessions memories) ->
  (1 <= s_memoryCount s)%nat
  /\ exists created active,
       s_createdAt s = Some created /\ s_lastActive s = Some active
       /\ created <= active.
Proof.
  intros I.
  destruct (group_sessions_listing memories) as [_ [IDS FIELDS]].
  destruct (FIELDS s I) as [CNT [CR LA]].
  assert (NE : members (s_id s) memories <> []).
  { apply members_nonempty, IDS, in_map, I. }
  destruct (members (s_id s) memories) as [|x l]; [contradiction|].
  cbn in CNT, CR, LA. split; [lia|].
  eexists. eexists. split; [exact CR|]. split; [exact LA|].
  pose proof (fold_min_le (map timestamp l) (timestamp x)).
  pose proof (fold_max_ge (map timestamp l) (timestamp x)).
  lia.
Qed.

End ListingCounts.

(** X13.  The session listing partitions the recalled memories: the memory
    counts of the listed sessions add up to the number of memories
    recalled, every listed session holds at least one memory, and its
    creation instant is not after its last activity. *)
Theorem getUserSessions_partitions {Cache : Type} (lib : RustLib Cache)
  (c : Cache) (userId : string) :
  exists memories sessions b',
    Bridge.recallMemories lib (plain_filter (Some userId) None 10000)
      (ready c) = (Ok memories, b')
    /\ Bridge.getUserSessions lib userId (ready c) = (Ok sessions, b')
    /\ total_count sessions = List.length memories
    /\ forall s, In s sessions ->
         (1 <= s_memoryCount s)%nat
         /\ exists created active,
              s_createdAt s = Some created /\ s_lastActive s = Some active
              /\ created <= active.
Proof.
  unfold Bridge.getUserSessions, rethrow, try_catch, Js.bind.
  unfold Bridge.recallMemories, rethrow, try_catch, Js.bind.
  cbn [ensureInitialized ready isInitialized cachePtr negb orb call
         plain_filter f_userId f_query f_sessionId f_limit].
  destruct (mindcache_recall lib c (Some userId) None None 10000)
    as [[memories|] c']; cbn [Js.ret].
  - exists memories, (group_sessions memories), (mkBridge (Some c') true).
    split; [reflexivity|]. split; [reflexivity|].
    split; [apply group_sessions_total | apply listing_entries_sound].
  - exists [], (group_sessions []), (mkBridge (Some c') true).
    split; [reflexivity|]. split; [reflexivity|].
    split; [reflexivity | intros s []].
Qed.

(** ** The status of a bulk save *)


(** ** User statistics *)

Section UserStatistics.

Import UserStats.














End UserStatistics.

Import UserStats.



Section ApiKeys.

Lemma split_comma_pieces (s piece : string) :
  In piece (split_comma s) -> ~ has_comma piece.
Proof.
  unfold has_comma. revert piece.
  induction s as [|c s IH]; intros piece I; cbn [split_comma] in I.
  - destruct I as [E|[]]. subst. cbn. tauto.
  - destruct (Ascii.eqb c ",") eqn:C.
    + destruct I as [E|I]; [subst; cbn; tauto | apply IH; exact I].
    + destruct (split_comma s) as [|p ps] eqn:E.
      * destruct I as [E'|[]]. subst. cbn.
        intros [F|[]]. subst. rewrite Ascii.eqb_refl in C. discriminate.
      * destruct I as [E'|I].
        -- subst. cbn [list_ascii_of_string]. intros [F|F].
           ++ subst. rewrite Ascii.eqb_refl in C. discriminate.
           ++ apply (IH p); [left; reflexivity | exact F].
        -- apply IH. right. exact I.
Qed.

Lemma valid_keys_or_else (validApiKeys : option string) :
  split_comma (match or_else validApiKeys (Some "") with
               | Some v => v
               | None => ""
               end)
  = valid_keys validApiKeys.
Proof. destruct validApiKeys as [[|c v]|]; reflexivity. Qed.

Lemma validateApiKey_required (validApiKeys header query : option string) :
  validateApiKey (Some "true") validApiKeys header query
  = if negb (is_truthy (or_else header query))
       || negb (match or_else header query with
                | Some k => existsb (String.eqb k) (valid_keys validApiKeys)
                | None => false
                end)
    then Some invalid_api_key else None.
Proof.
  unfold validateApiKey. cbv zeta. rewrite valid_keys_or_else. reflexivity.
Qed.

Lemma existsb_eqb_In (k : string) (l : list string) :
  existsb (String.eqb k) l = true <-> In k l.
Proof.
  rewrite existsb_exists. split.
  - intros [x [I E]]. apply String.eqb_eq in E. subst. exact I.
  - intros I. exists k. split; [exact I | apply String.eqb_refl].
Qed.

End ApiKeys.

(** X16.  With [REQUIRE_API_KEY] set to "true", [validateApiKey] lets a
    request through exactly when its key (the [X-API-Key] header, or the
    [apiKey] query parameter when the header is absent or empty) is a
    non-empty piece of [VALID_API_KEYS] split at commas; every other request
    gets the 401 error INVALID_API_KEY.  So a key with a comma in it never
    passes, and with [VALID_API_KEYS] unset or empty no request passes. *)
Theorem validateApiKey_accepts_listed_keys
    (requireApiKey validApiKeys header query : option string)
    (H : requireApiKey = Some "true") :
  let outcome := validateApiKey requireApiKey validApiKeys header query in
  (outcome = None \/ outcome = Some invalid_api_key)
  /\ (outcome = None <->
      exists k, or_else header query = Some k /\ k <> ""
                /\ In k (valid_keys validApiKeys))
  /\ (forall k, or_else header query = Some k -> has_comma k ->
                outcome = Some invalid_api_key)
  /\ (validApiKeys = None \/ validApiKeys = Some "" ->
      outcome = Some invalid_api_key).
Proof.
  subst requireApiKey. cbv zeta. rewrite validateApiKey_required.
  assert (P : forall k, or_else header query = Some k ->
                is_truthy (Some k) = true -> k <> "").
  { intros k _ T E. subst k. discriminate T. }
  destruct (or_else header query) as [k|] eqn:K.
  - destruct (is_truthy (Some k)) eqn:T; cbn [negb orb].
    + destruct (existsb (String.eqb k) (valid_keys validApiKeys)) eqn:E;
        cbn [negb].
      * apply existsb_eqb_In in E.
        split; [left; reflexivity|]. split.
        { split; [|reflexivity]. intros _. exists k.
          split; [reflexivity|]. split; [apply P; auto | exact E]. }
        split.
        { intros k' Q C. injection Q as <-.
          destruct (split_comma_pieces _ _ E C). }
        { intros [V|V]; subst validApiKeys; cbn in E;
            destruct E as [E|[]]; subst k; discriminate T. }
      * assert (N : ~ In k (valid_keys validApiKeys)).
        { intros I. apply existsb_eqb_In in I. congruence. }
        split; [right; reflexivity|]. split.
        { split; [discriminate|]. intros [k' [Q [_ I]]].
          injection Q as <-. contradiction. }
        split; [intros; reflexivity | intros; reflexivity].
    + split; [right; reflexivity|]. split.
      { split; [discriminate|]. intros [k' [Q [NE _]]].
        injection Q as <-. destruct k; [congruence | discriminate T]. }
      split; [intros; reflexivity | intros; reflexivity].
  - cbn [is_truthy negb orb].
    split; [right; reflexivity|]. split.
    { split; [discriminate|]. intros [k' [Q _]]. discriminate Q. }
    split; [intros; reflexivity | intros; reflexivity].
Qed.

Lemma validateApiKey_accepts_listed_keys_witness :
  Some "true" = Some "true"
  /\ (validateApiKey (Some "true") (Some "alpha,beta") (Some "") (Some "beta")
      = None <->
      exists k, or_else (Some "") (Some "beta") = Some k /\ k <> ""
                /\ In k (valid_keys (Some "alpha,beta"))).
Proof.
  split; [reflexivity|].
  apply (validateApiKey_accepts_listed_keys
           (Some "true") (Some "alpha,beta") (Some "") (Some "beta")
           eq_refl).
Defined.

(** ** The life cycle of the bridge *)

Import Lifecycle.

(** X17.  [cleanup] never throws.  With no cache pointer, or when the core
    releases the cache, it leaves the bridge as the constructor makes it, so
    that every later call throws "Rust bridge not initialized"; when the
    release throws, the bridge is left exactly as it was, pointer and
    initialised flag included.  A second [cleanup] changes nothing more. *)
Theorem cleanup_resets_bridge {Cache : Type} (lib : RustLib Cache)
  (mindcache_destroy : Cache -> Result unit) (b : RustBridge Cache) :
  let after := snd (cleanup mindcache_destroy b) in
  fst (cleanup mindcache_destroy b) = Ok tt
  /\ (forall c e, cachePtr b = Some c -> mindcache_destroy c = Throw e ->
        after = b)
  /\ (cachePtr b = None
      \/ (exists c, cachePtr b = Some c /\ mindcache_destroy c = Ok tt) ->
      after = constructed
      /\ (forall a, Bridge.saveMemory lib a after
                    = (Throw not_initialized, after))
      /\ (forall f, Bridge.recallMemories lib f after
                    = (Throw not_initialized, after)))
  /\ cleanup mindcache_destroy after = (Ok tt, after).
Proof.
  cbv zeta. unfold cleanup, try_catch, ret.
  destruct b as [[c|] i]; cbn [cachePtr isInitialized].
  - destruct (mindcache_destroy c) as [[]|e] eqn:D; cbn [fst snd cachePtr].
    + split; [reflexivity|]. split.
      * intros c' e' F G. injection F as <-. congruence.
      * split; [|reflexivity]. intros _. split; [reflexivity|].
        split; intros; apply guarded_throws; left; reflexivity.
    + split; [reflexivity|]. split; [reflexivity|]. split.
      * intros [F|[c' [F G]]]; [discriminate F|].
        injection F as <-. congruence.
      * rewrite D. reflexivity.
  - cbn [fst snd cachePtr].
    split; [reflexivity|]. split; [intros c e F; discriminate F|].
    split; [|reflexivity]. intros _. split; [reflexivity|].
    split; intros; apply guarded_throws; left; reflexivity.
Qed.

(** X18.  [healthCheck] never throws.  It reports "not_initialized" exactly
    when the initialised flag is off; with the flag on and no cache pointer
    it reports "unhealthy" with the unwrapped message "Rust bridge not
    initialized. Call initialize() first."; over a cache it reports
    "healthy" when the statistics call returns null, the empty text, or a
    text that parses, and otherwise "unhealthy" with the message prefixed
    by "Failed to get statistics: ". *)
Theorem healthCheck_reports {Cache J : Type}
  (mindcache_get_stats : Cache -> Result (option string) * Cache)
  (JSON_parse : string -> Result J) (empty_object : J)
  (b : RustBridge Cache) :
  let check := healthCheck mindcache_get_stats JSON_parse empty_object in
  (exists health, fst (check b) = Ok health)
  /\ (fst (check b) = Ok status_not_initialized <-> isInitialized b = false)
  /\ (isInitialized b = false -> snd (check b) = b)
  /\ (isInitialized b = true -> cachePtr b = None ->
      check b = (Ok (status_unhealthy (message not_initialized) true), b))
  /\ (forall c,
        check (ready c)
        = (match fst (mindcache_get_stats c) with
           | Ok None => Ok status_healthy
           | Ok (Some text) =>
               match text, JSON_parse text with
               | EmptyString, _ => Ok status_healthy
               | _, Ok _ => Ok status_healthy
               | _, Throw e =>
                   Ok (status_unhealthy
                         ("Failed to get statistics: " ++ message e) true)
               end
           | Throw e =>
               Ok (status_unhealthy
                     ("Failed to get statistics: " ++ message e) true)
           end,
           ready (snd (mindcache_get_stats c)))).
Proof.
  cbv zeta.
  assert (R : forall c,
    healthCheck mindcache_get_stats JSON_parse empty_object (ready c)
    = (match fst (mindcache_get_stats c) with
       | Ok None => Ok status_healthy
       | Ok (Some text) =>
           match text, JSON_parse text with
           | EmptyString, _ => Ok status_healthy
           | _, Ok _ => Ok status_healthy
           | _, Throw e =>
               Ok (status_unhealthy
                     ("Failed to get statistics: " ++ message e) true)
           end
       | Throw e =>
           Ok (status_unhealthy
                 ("Failed to get statistics: " ++ message e) true)
       end,
       ready (snd (mindcache_get_stats c)))).
  { intros c.
    unfold healthCheck, getStats, rethrow, try_catch, Js.bind, ret, throw,
      ensureInitialized, call_throwing, ready.
    cbn [isInitialized cachePtr negb orb].
    destruct (mindcache_get_stats c) as [[[[|ch text]|]|e] c'];
      cbn [fst snd isInitialized]; try reflexivity.
    destruct (JSON_parse (String ch text)); reflexivity. }
  destruct b as [[c|] [|]].
  - fold (ready c). rewrite R. cbn [isInitialized ready].
    split.
    { destruct (fst (mindcache_get_stats c)) as [[[|ch text]|]|e];
        cbn [fst]; eauto.
      destruct (JSON_parse (String ch text)); eauto. }
    split.
    { split; [|discriminate].
      destruct (fst (mindcache_get_stats c)) as [[[|ch text]|]|e];
        cbn [fst]; try discriminate.
      destruct (JSON_parse (String ch text)); discriminate. }
    split; [discriminate|]. split; [discriminate|]. exact R.
  - cbn. split; [eauto|]. split; [split; reflexivity|].
    split; [reflexivity|]. split; [discriminate|]. exact R.
  - cbn. split; [eauto|]. split; [split; discriminate|].
    split; [discriminate|]. split; [reflexivity|]. exact R.
  - cbn. split; [eauto|]. split; [split; reflexivity|].
    split; [reflexivity|]. split; [discriminate|]. exact R.
Qed.

(** ** Creating a session *)

(** X19.  Creating a session stores nothing: the handler never calls the
    core and leaves the bridge as it was.  On an initialised bridge it
    answers 201 with an id made of the clock and the random text only, and
    with "name || null" and "metadata || {}"; on a bridge that is not
    initialised it answers 500 SESSION_CREATE_ERROR.  So a session just
    created is not found afterwards unless the core already holds a memory
    under that id. *)
Theorem createSession_stores_nothing {Cache : Type} (lib : RustLib Cache)
  (now : Z) (random36 userId : string) (name metadata : option string)
  (b : RustBridge Cache) :
  let create :=
    SessionCreate.createSession (Cache := Cache) now random36 userId name
      metadata in
  let sessionId := generateSessionId now random36 in
  snd (create b) = b
  /\ (uninitialized b ->
      fst (create b)
      = Throw (createError (message not_initialized)
                 "SESSION_CREATE_ERROR" 500))
  /\ (forall c, b = ready c ->
        fst (create b)
        = Ok (mkResponse 201
                (SessionCreate.mkCreateData sessionId userId
                   (or_else name None)
                   (match metadata with Some m => m | None => "{}" end))))
  /\ (forall c, b = ready c ->
        fst (mindcache_recall lib c None None (Some sessionId) 1) = None
        \/ fst (mindcache_recall lib c None None (Some sessionId) 1)
           = Some [] ->
        fst (Js.bind create
               (fun _ => SessionHandlers.getSession lib userId sessionId) b)
        = Throw (createError "Session not found" "SESSION_NOT_FOUND" 404)).
Proof.
  cbv zeta.
  assert (R : forall c,
    SessionCreate.createSession (Cache := Cache) now random36 userId name
      metadata (ready c)
    = (Ok (mkResponse 201
             (SessionCreate.mkCreateData (generateSessionId now random36)
                userId (or_else name None)
                (match metadata with Some m => m | None => "{}" end))),
       ready c)).
  { intros c. reflexivity. }
  split; [|split; [|split]].
  - destruct b as [[c|] [|]]; reflexivity.
  - intros U. destruct b as [[c|] [|]]; try reflexivity.
    destruct U as [U|U]; discriminate U.
  - intros c ->. rewrite R. reflexivity.
  - intros c -> N. unfold Js.bind at 1. rewrite R.
    unfold SessionHandlers.getSession, owned_session, try_catch, Js.bind,
      Bridge.getSession, Bridge.recallMemories, rethrow, try_catch, Js.bind,
      ensureInitialized, call, ret, throw, ready, plain_filter.
    cbn [isInitialized cachePtr negb orb f_userId f_query f_sessionId
         f_limit].
    destruct (mindcache_recall lib c None None
                (Some (generateSessionId now random36)) 1)
      as [[[|m ms]|] c'] eqn:E; cbn [fst] in N;
      [ | destruct N; discriminate | ]; reflexivity.
Qed.

(** ** Searching memories *)

Import MemorySearch.

